(** * CYBERTEST pytest runner: test execution and result tracking

    A shallow embedding of the non-decorative core of
    [pytest_gui_runner.py]: the command built by [run_pytest], the summary
    parser [PytestGUI._parse_test_summary], the bounded run history kept by
    [PytestGUI._add_run_to_history], the history recall of
    [PytestGUI._on_history_select] and the orchestration in
    [PytestGUI.run_tests].

    Modelling conventions.
    - A Python [str] is a [string]; a character is a code point below 256
      (the Latin-1 range), on which the character classes of [re] and of
      [str.splitlines] and the mapping of [str.lower] are written out in full.
    - A Python [int] is a [Z] when it can be negative (exit codes, list-box
      indices) and an [N] when it is a counter built from digit groups.
    - The interpreter's limit on conversions between [int] and [str]
      ([sys.get_int_max_str_digits()], 4300 digits by default) is modelled
      apart: the definitions of the first part read and write integers of
      any length, as an interpreter without the limit does, and never
      raise; module [Checked] follows the same source lines with the limit
      as a parameter and [ValueError] as an outcome of [int(...)], of the
      label f-strings, of [_parse_test_summary] and of [run_tests].  The
      two are related by lemmas ([CheckedFacts.parse_cases],
      [CheckedFacts.run_cases], [LimitFacts.run_tests_no_limit]).
    - The widgets are fields of the record [gui]: a [Text] widget is its
      contents, a [Label] is its text, the [Listbox] is its list of rows.
    - The child process and the clock are the environment: [subprocess.run]
      is an oracle from the call it receives to its outcome. *)

From Stdlib Require Import Bool List ZArith NArith Lia Ascii String.
From Stdlib Require Import Numbers.DecimalString.
Import ListNotations.

Local Open Scope list_scope.
Local Open Scope string_scope.

(** ** Characters and strings *)

Module Str.

Definition code (c : ascii) : nat := nat_of_ascii c.

Definition in_range (lo hi : nat) (c : ascii) : bool :=
  (lo <=? code c)%nat && (code c <=? hi)%nat.

(** [\d] of a [str] pattern: the decimal digits (below 256 these are
    [0-9] only). *)
Definition is_digit (c : ascii) : bool := in_range 48 57 c.

(** [\s] of a [str] pattern: Unicode white space; below 256 these are
    TAB..CR, FS..US, SPACE, NEL and NBSP. *)
Definition is_space (c : ascii) : bool :=
  in_range 9 13 c || in_range 28 32 c
  || (code c =? 133)%nat || (code c =? 160)%nat.

(** Line boundaries of [str.splitlines] other than CR (which may pair
    with a following LF): LF, VT, FF, FS, GS, RS and NEL. *)
Definition is_linebreak (c : ascii) : bool :=
  in_range 10 12 c || in_range 28 30 c || (code c =? 133)%nat.

Definition CR : ascii := ascii_of_nat 13.
Definition LF : ascii := ascii_of_nat 10.
Definition nl : string := String LF "".

(** [str.lower] on one code point below 256: [A-Z] and the accented
    capitals U+00C0..U+00DE (the multiplication sign U+00D7 apart). *)
Definition lower_char (c : ascii) : ascii :=
  if in_range 65 90 c
     || (in_range 192 222 c && negb (code c =? 215)%nat)
  then ascii_of_nat (code c + 32)
  else c.

Fixpoint lower (s : string) : string :=
  match s with
  | "" => ""
  | String c s' => String (lower_char c) (lower s')
  end.

(** Truth value of a [str]: non-empty. *)
Definition truthy (s : string) : bool :=
  match s with "" => false | String _ _ => true end.

(** [s.startswith(p)] *)
Fixpoint startswith (p s : string) : bool :=
  match p, s with
  | "", _ => true
  | String a p', String b s' => Ascii.eqb a b && startswith p' s'
  | String _ _, "" => false
  end.

(** [p in s] *)
Fixpoint contains (p s : string) : bool :=
  startswith p s ||
  match s with
  | "" => false
  | String _ s' => contains p s'
  end.

Fixpoint rev_append (acc s : string) : string :=
  match acc with
  | "" => s
  | String c acc' => rev_append acc' (String c s)
  end.

(** [str.splitlines()]: [cur] is the line being read, latest character
    first.  A final line break opens no further line. *)
Fixpoint splitlines_from (cur s : string) : list string :=
  match s with
  | "" => if truthy cur then [rev_append cur ""] else []
  | String c s' =>
      if Ascii.eqb c CR then
        match s' with
        | String d s'' =>
            if Ascii.eqb d LF
            then rev_append cur "" :: splitlines_from "" s''
            else rev_append cur "" :: splitlines_from "" s'
        | "" => rev_append cur "" :: splitlines_from "" s'
        end
      else if is_linebreak c then rev_append cur "" :: splitlines_from "" s'
      else splitlines_from (String c cur) s'
  end.

Definition splitlines (s : string) : list string := splitlines_from "" s.

(** [int(ds)] for a group of decimal digits, on an interpreter without the
    conversion limit: total, of any length.  [Checked.int_checked] is
    [int(ds)] under a limit, where it raises [ValueError] (line 667). *)
Definition digit_value (c : ascii) : N := N.of_nat (code c - 48).

Fixpoint int_from (acc : N) (ds : string) : N :=
  match ds with
  | "" => acc
  | String c ds' => int_from (10 * acc + digit_value c)%N ds'
  end.

Definition int_of_digits (ds : string) : N := int_from 0%N ds.

(** [os.path.basename] as [posixpath] has it: what follows the last
    slash. *)
Fixpoint basename_from (cur s : string) : string :=
  match s with
  | "" => rev_append cur ""
  | String c s' =>
      if Ascii.eqb c "/"%char then basename_from "" s'
      else basename_from (String c cur) s'
  end.

Definition basename (s : string) : string := basename_from "" s.

(** [a or b] on strings. *)
Definition or_else (a b : string) : string := if truthy a then a else b.

(** The longest prefix of [s] in the class [p], and the rest. *)
Fixpoint span (p : ascii -> bool) (s : string) : string * string :=
  match s with
  | String c s' =>
      if p c then let (a, b) := span p s' in (String c a, b) else ("", s)
  | "" => ("", "")
  end.

(** [str(n)] / [f"{n}"] for an [int], on an interpreter without the
    conversion limit: total.  [Checked.format_N] is the formatting of a
    counter under a limit, where it raises [ValueError] (lines 685-689,
    after the counters have been assigned). *)
Definition of_Z (z : Z) : string := NilZero.string_of_int (Z.to_int z).
Definition of_N (n : N) : string := of_Z (Z.of_N n).

End Str.

(** ** The regular expression [(\d+)\s+key]

    [re] matches by backtracking; the two greedy repetitions are written with
    their backtracking: the longest run is tried first and given back one
    character at a time while the rest of the pattern fails. *)

Module Re.

Section Greedy.
Context {R : Type}.
Variable p : ascii -> bool.
(** The continuation gets the text taken so far (latest character
    first), and what is left of the subject. *)
Variable k : string -> string -> option R.

(** [p*] after [taken]. *)
Fixpoint greedy_star (taken s : string) : option R :=
  match s with
  | String c s' =>
      if p c then
        match greedy_star (String c taken) s' with
        | Some r => Some r
        | None => k taken s
        end
      else k taken s
  | "" => k taken s
  end.

(** [p+] *)
Definition greedy_plus (s : string) : option R :=
  match s with
  | String c s' => if p c then greedy_star (String c "") s' else None
  | "" => None
  end.
End Greedy.

(** One attempt of [(\d+)\s+key] at the head of [s]: group 1 and the
    length of the text left after the match. *)
Definition match_here (key s : string) : option (string * nat) :=
  greedy_plus Str.is_digit
    (fun ds r1 =>
       greedy_plus Str.is_space
         (fun _ r2 =>
            if Str.startswith key r2
            then Some (Str.rev_append ds "", length r2 - length key)
            else None)
         r1)
    s.

(** [re.finditer]: the matches from left to right, without overlap.
    [skip] counts the characters still covered by the match just found.
    Yields [int(match.group(1))] of each match. *)
Fixpoint finditer_from (key : string) (skip : nat) (s : string) : list N :=
  match s with
  | "" => []
  | String _ s' =>
      match skip with
      | S n => finditer_from key n s'
      | O =>
          match match_here key s with
          | Some (ds, rest) =>
              Str.int_of_digits ds
                :: finditer_from key (length s - rest - 1) s'
          | None => finditer_from key 0 s'
          end
      end
  end.

Definition finditer (key s : string) : list N := finditer_from key 0 s.

End Re.

(** ** Test counts and the summary parser *)

(** The four local accumulators of [_parse_test_summary]. *)
Module Tally.
Record t : Type := mk {
  passed : N;
  failed : N;
  errors : N;
  skipped : N
}.

Definition zero : t := mk 0 0 0 0.
End Tally.

Definition pattern_map : list (string * string) :=
  [ ("passed", "passed");
    ("failed", "failed");
    ("error", "errors");
    ("errors", "errors");
    ("skipped", "skipped") ].

(** The [if label == ... elif ...] chain. *)
Definition add_value (label : string) (value : N) (t : Tally.t) : Tally.t :=
  let '(Tally.mk p f e s) := t in
  if String.eqb label "passed" then Tally.mk (p + value) f e s
  else if String.eqb label "failed" then Tally.mk p (f + value) e s
  else if String.eqb label "errors" then Tally.mk p f (e + value) s
  else if String.eqb label "skipped" then Tally.mk p f e (s + value)
  else t.

Definition is_candidate (line : string) : bool :=
  Str.contains " passed" line
  || Str.contains " failed" line
  || Str.contains " skipped" line
  || Str.contains " error" line.

(** [for match in re.finditer(...)] for one item of [pattern_map]. *)
Definition scan_key (line : string) (t : Tally.t) (kl : string * string)
  : Tally.t :=
  fold_left (fun t' value => add_value (snd kl) value t')
            (Re.finditer (fst kl) line) t.

(** The body of [for line in text.splitlines()]. *)
Definition scan_line (t : Tally.t) (line : string) : Tally.t :=
  if is_candidate line then fold_left (scan_key line) pattern_map t else t.

Definition tally_of (text : string) : Tally.t :=
  fold_left scan_line (Str.splitlines text) Tally.zero.

(** The [counts] dictionary of a history entry; also what
    [_parse_test_summary] leaves in the five [tests_*] attributes. *)
Record counts_t : Type := mkCounts {
  total : N;
  passed : N;
  failed : N;
  errors : N;
  skipped : N
}.

Definition parse_counts (text : string) : counts_t :=
  let t := tally_of text in
  let total :=
    (Tally.passed t + Tally.failed t + Tally.errors t + Tally.skipped t)%N in
  mkCounts total (Tally.passed t) (Tally.failed t) (Tally.errors t)
           (Tally.skipped t).

(** ** The runner invoker: [run_pytest] *)

(** The call [subprocess.run(cmd, capture_output=..., text=..., shell=...)]. *)
Record run_call : Type := mkCall {
  args : list string;
  capture_output : bool;
  text : bool;
  shell : bool
}.

(** What leaves [subprocess.run] when it does not return: an instance of
    [Exception] whose [str] is [msg], or another [BaseException]
    ([KeyboardInterrupt], [SystemExit]), which [except Exception] lets
    through. *)
Inductive raised : Type :=
| Exc (msg : string)
| BaseExc.

Inductive outcome : Type :=
| Completed (stdout stderr : string) (returncode : Z)
| Raised (r : raised).

Record env : Type := mkEnv {
  sys_executable : string;
  subprocess_run : run_call -> outcome;
  (** [datetime.now().strftime("%H:%M:%S")] *)
  now : string
}.

(** [flag and flag.lower() != "normal"]; [None] and [""] are false. *)
Definition flag_given (flag : option string) : bool :=
  match flag with
  | None => false
  | Some f => Str.truthy f && negb (String.eqb (Str.lower f) "normal")
  end.

Definition build_cmd (exe target_path : string) (flag : option string)
  : list string :=
  let cmd := [exe; "-m"; "pytest"] in
  let cmd :=
    match flag with
    | Some f => if flag_given flag then (cmd ++ [f])%list else cmd
    | None => cmd
    end in
  (cmd ++ [target_path])%list.

(** The one call [run_pytest] makes. *)
Definition pytest_call (exe target_path : string) (flag : option string)
  : run_call :=
  mkCall (build_cmd exe target_path flag) true true false.

(** [None]: an exception leaves [run_pytest]. *)
Definition run_pytest (E : env) (target_path : string) (is_directory : bool)
           (flag : option string) : option (string * string * Z) :=
  match subprocess_run E (pytest_call (sys_executable E) target_path flag) with
  | Completed stdout stderr returncode => Some (stdout, stderr, returncode)
  | Raised (Exc msg) =>
      Some ("", "Unexpected error running pytest: " ++ msg, 1%Z)
  | Raised BaseExc => None
  end.

(** ** The window state *)

(** One dictionary of [run_history]. *)
Record entry : Type := mkEntry {
  summary : string;
  output : string;
  exit_code : Z;
  flag : string;
  timestamp : string;
  target_type : string;
  target_name : string;
  counts : counts_t
}.

Record gui : Type := mkGui {
  selected_path : option string;
  is_directory : bool;
  last_stdout : string;
  last_stderr : string;
  tests_passed : N;
  tests_failed : N;
  tests_errors : N;
  tests_skipped : N;
  tests_total : N;
  run_history : list entry;
  (** widgets *)
  flag_var : string;
  output_text : string;
  history_listbox : list string;
  cursor_label : string;
  summary_total : string;
  summary_passed : string;
  summary_failed : string;
  summary_errors : string;
  summary_skipped : string
}.

(** The attributes as [__init__] leaves them; the widgets' first texts are
    those [_create_widgets] gives them and play no part below. *)
Definition init : gui :=
  mkGui None false "" "" 0 0 0 0 0 [] "Normal" "" [] ""
        "Total: 0" "Passed: 0" "Failed: 0" "Errors: 0" "Skipped: 0".

Definition set_output_text (v : string) (g : gui) : gui :=
  mkGui (selected_path g) (is_directory g) (last_stdout g) (last_stderr g)
        (tests_passed g) (tests_failed g) (tests_errors g) (tests_skipped g)
        (tests_total g) (run_history g) (flag_var g) v (history_listbox g)
        (cursor_label g) (summary_total g) (summary_passed g)
        (summary_failed g) (summary_errors g) (summary_skipped g).

Definition set_cursor_label (v : string) (g : gui) : gui :=
  mkGui (selected_path g) (is_directory g) (last_stdout g) (last_stderr g)
        (tests_passed g) (tests_failed g) (tests_errors g) (tests_skipped g)
        (tests_total g) (run_history g) (flag_var g) (output_text g)
        (history_listbox g) v (summary_total g) (summary_passed g)
        (summary_failed g) (summary_errors g) (summary_skipped g).

Definition set_last (out err : string) (g : gui) : gui :=
  mkGui (selected_path g) (is_directory g) out err
        (tests_passed g) (tests_failed g) (tests_errors g) (tests_skipped g)
        (tests_total g) (run_history g) (flag_var g) (output_text g)
        (history_listbox g) (cursor_label g) (summary_total g)
        (summary_passed g) (summary_failed g) (summary_errors g)
        (summary_skipped g).

Definition set_history (h : list entry) (rows : list string) (g : gui) : gui :=
  mkGui (selected_path g) (is_directory g) (last_stdout g) (last_stderr g)
        (tests_passed g) (tests_failed g) (tests_errors g) (tests_skipped g)
        (tests_total g) h (flag_var g) (output_text g) rows
        (cursor_label g) (summary_total g) (summary_passed g)
        (summary_failed g) (summary_errors g) (summary_skipped g).

(** [output_text.insert(tk.END, s)] *)
Definition insert_end (s : string) (g : gui) : gui :=
  set_output_text (output_text g ++ s) g.

(** [output_text.get("1.0", tk.END)]: the contents and the newline that
    closes every Tk text widget. *)
Definition get_all (g : gui) : string := output_text g ++ Str.nl.

(** ** [_parse_test_summary] *)

(** The method on an interpreter without the conversion limit, where it
    always returns.  Under a limit it can raise at line 667 or at lines
    685-689: that is [Checked._parse_test_summary]. *)
Definition _parse_test_summary (text : string) (g : gui) : gui :=
  let c := parse_counts text in
  mkGui (selected_path g) (is_directory g) (last_stdout g) (last_stderr g)
        (passed c) (failed c) (errors c) (skipped c) (total c)
        (run_history g) (flag_var g) (output_text g) (history_listbox g)
        (cursor_label g)
        ("Total: " ++ Str.of_N (total c))
        ("Passed: " ++ Str.of_N (passed c))
        ("Failed: " ++ Str.of_N (failed c))
        ("Errors: " ++ Str.of_N (errors c))
        ("Skipped: " ++ Str.of_N (skipped c)).

(** ** [_add_run_to_history] *)

Definition status_of (exit_code : Z) (tests_failed tests_errors : N) : string :=
  if negb (exit_code =? 0)%Z || (0 <? tests_failed)%N || (0 <? tests_errors)%N
  then "ISSUE"
  else "OK".

Definition target_type_of (is_directory : bool) : string :=
  if is_directory then "FOLDER" else "FILE".

Definition make_entry (ts : string) (exit_code : Z) (flag output : string)
           (g : gui) : entry :=
  let status := status_of exit_code (tests_failed g) (tests_errors g) in
  let target_type := target_type_of (is_directory g) in
  let name := match selected_path g with
              | Some p => Str.or_else p "?"
              | None => "?"
              end in
  let name := Str.or_else (Str.basename name) name in
  let summary :=
    ts ++ " | " ++ status ++ " | code=" ++ Str.of_Z exit_code ++ " | "
       ++ "T:" ++ Str.of_N (tests_total g)
       ++ " P:" ++ Str.of_N (tests_passed g) ++ " "
       ++ "F:" ++ Str.of_N (tests_failed g)
       ++ " E:" ++ Str.of_N (tests_errors g)
       ++ " S:" ++ Str.of_N (tests_skipped g) ++ " | "
       ++ target_type ++ ":" ++ name in
  mkEntry summary output exit_code flag ts target_type name
          (mkCounts (tests_total g) (tests_passed g) (tests_failed g)
                    (tests_errors g) (tests_skipped g)).

(** [l[-5:]] *)
Definition last5 {A : Type} (l : list A) : list A :=
  skipn (List.length l - 5) l.

(** [run_history.append(entry); run_history = run_history[-5:]] *)
Definition record (e : entry) (h : list entry) : list entry :=
  last5 (h ++ [e])%list.

Definition _add_run_to_history (ts : string) (exit_code : Z)
           (flag output : string) (g : gui) : gui :=
  let h := record (make_entry ts exit_code flag output g) (run_history g) in
  set_history h (map summary (rev h)) g.

(** ** [_on_history_select] *)

(** [l[i]] for a Python [int]: negative indices count from the end;
    [None] is [IndexError]. *)
Definition py_index {A : Type} (l : list A) (i : Z) : option A :=
  let n := Z.of_nat (List.length l) in
  if (0 <=? i)%Z then nth_error l (Z.to_nat i)
  else if (0 <=? n + i)%Z then nth_error l (Z.to_nat (n + i))
  else None.

(** [selection] is [history_listbox.curselection()].  [None]: the handler
    raises. *)
Definition _on_history_select (selection : list Z) (g : gui) : option gui :=
  match selection with
  | [] => Some g
  | display_index :: _ =>
      match run_history g with
      | [] => Some g
      | _ :: _ =>
          let len := Z.of_nat (List.length (run_history g)) in
          let history_index := (len - 1 - display_index)%Z in
          if (history_index <? 0)%Z || (len <=? history_index)%Z then Some g
          else
            match py_index (run_history g) history_index with
            | None => None
            | Some e =>
                if Str.truthy (output e) then
                  Some (set_cursor_label "> HISTORY VIEW _"
                          (insert_end (output e) (set_output_text "" g)))
                else Some g
            end
      end
  end.

(** ** [run_tests] *)

Inductive run_result : Type :=
| Finished (g : gui)
(** an exception left [run_pytest] and so [run_tests]; [g] is the state
    it left behind *)
| Escaped (g : gui).

Definition boot_banner (g : gui) (path flag : string) : string :=
  "[BOOT] pytest engaged on " ++ target_type_of (is_directory g) ++ ":"
    ++ Str.nl ++ path ++ Str.nl
    ++ (if flag_given (Some flag) then "[FLAG] " ++ flag ++ Str.nl else "")
    ++ Str.nl.

Definition output_block (stdout : string) : string :=
  if Str.truthy stdout
  then "=== PYTEST OUTPUT ===" ++ Str.nl ++ (stdout ++ Str.nl)
  else "".

Definition errors_block (stderr : string) : string :=
  if Str.truthy stderr
  then "=== PYTEST ERRORS ===" ++ Str.nl ++ (stderr ++ Str.nl)
  else "".

Definition exit_code_line (return_code : Z) : string :=
  Str.nl ++ "[EXIT CODE] " ++ Str.of_Z return_code ++ Str.nl.

(** The method on an interpreter without the conversion limit: it
    finishes, or an exception of the child process that [run_pytest] does
    not catch leaves it.  The third outcome, [_parse_test_summary] raising
    after the child has returned, is in [Checked.run_tests]. *)
Definition run_tests (E : env) (g : gui) : run_result :=
  match selected_path g with
  | None => Finished g
  | Some path =>
      if negb (Str.truthy path) then Finished g
      else
        let flag := flag_var g in
        let g := set_output_text "" g in
        let g := insert_end ("[BOOT] pytest engaged on "
                               ++ target_type_of (is_directory g) ++ ":"
                               ++ Str.nl ++ path ++ Str.nl) g in
        let g := if flag_given (Some flag)
                 then insert_end ("[FLAG] " ++ flag ++ Str.nl) g
                 else g in
        let g := insert_end Str.nl g in
        match run_pytest E path (is_directory g) (Some flag) with
        | None => Escaped g
        | Some (stdout, stderr, return_code) =>
            let g := set_last stdout stderr g in
            let g := if Str.truthy stdout
                     then insert_end (stdout ++ Str.nl)
                            (insert_end ("=== PYTEST OUTPUT ===" ++ Str.nl) g)
                     else g in
            let g := if Str.truthy stderr
                     then insert_end (stderr ++ Str.nl)
                            (insert_end ("=== PYTEST ERRORS ===" ++ Str.nl) g)
                     else g in
            let combined := stdout ++ Str.nl ++ stderr in
            let g := _parse_test_summary combined g in
            let g := insert_end (Str.nl ++ "[EXIT CODE] "
                                   ++ Str.of_Z return_code ++ Str.nl) g in
            let full_output := get_all g in
            let g := _add_run_to_history (now E) return_code flag full_output g in
            Finished
              (if (0 <? tests_failed g)%N || (0 <? tests_errors g)%N
                  || negb (return_code =? 0)%Z
               then set_cursor_label "> RUN COMPLETE (ISSUES) _" g
               else set_cursor_label "> RUN COMPLETE (OK) _" g)
        end
  end.

(** ** Auxiliary notions used to state the properties *)

Definition sum_N (l : list N) : N := fold_right N.add 0%N l.

(** What one candidate line adds to the accumulators, key by key. *)
Definition line_sums (line : string) (t : Tally.t) : Tally.t :=
  Tally.mk
    (Tally.passed t + sum_N (Re.finditer "passed" line))
    (Tally.failed t + sum_N (Re.finditer "failed" line))
    (Tally.errors t + sum_N (Re.finditer "error" line)
                    + sum_N (Re.finditer "errors" line))
    (Tally.skipped t + sum_N (Re.finditer "skipped" line)).

(** [(\d+)\s+key] without backtracking: the whole run of digits, the whole
    run of white space, then the key. *)
Definition match_longest (key s : string) : option (string * nat) :=
  let (ds, r1) := Str.span Str.is_digit s in
  let (ws, r2) := Str.span Str.is_space r1 in
  if Str.truthy ds && Str.truthy ws && Str.startswith key r2
  then Some (ds, length r2 - length key)
  else None.

(** [c] is the letter [x] in either case. *)
Definition either_case (x c : ascii) : bool :=
  Ascii.eqb c x || Ascii.eqb c (ascii_of_nat (Str.code x - 32)).

(** The word "normal" in any mix of upper and lower case. *)
Definition spelt_normal (f : string) : bool :=
  match f with
  | String a (String b (String c (String d (String e (String g ""))))) =>
      either_case "n" a && either_case "o" b && either_case "r" c
      && either_case "m" d && either_case "a" e && either_case "l" g
  | _ => false
  end.

(** The optional flag argument of the command. *)
Definition flag_args (flag : option string) : list string :=
  match flag with
  | Some f =>
      if Str.truthy f && negb (String.eqb (Str.lower f) "normal")
      then [f] else []
  | None => []
  end.

(** The newest entry of a history. *)
Definition newest (h : list entry) : option entry := nth_error (rev h) 0.

(** The status of a run, recomputed from a stored entry alone. *)
Definition classification (e : entry) : string :=
  status_of (exit_code e) (failed (counts e)) (errors (counts e)).

(** The history row of an entry, recomputed from its fields alone. *)
Definition summary_of (e : entry) : string :=
  timestamp e ++ " | " ++ classification e ++ " | code="
    ++ Str.of_Z (exit_code e) ++ " | "
    ++ "T:" ++ Str.of_N (total (counts e))
    ++ " P:" ++ Str.of_N (passed (counts e)) ++ " "
    ++ "F:" ++ Str.of_N (failed (counts e))
    ++ " E:" ++ Str.of_N (errors (counts e))
    ++ " S:" ++ Str.of_N (skipped (counts e)) ++ " | "
    ++ target_type e ++ ":" ++ target_name e.

(** [records g es g']: from [g] the window reaches [g'] by calls of
    [_add_run_to_history] that stored the entries [es], oldest first, with
    any other activity in between that leaves [run_history] alone (no other
    method assigns it). *)
Inductive records : gui -> list entry -> gui -> Prop :=
| records_start (g : gui) : records g [] g
| records_other (g g' g'' : gui) (es : list entry) :
    records g es g' ->
    run_history g'' = run_history g' ->
    records g es g''
| records_add (g g' : gui) (es : list entry)
              (ts : string) (code : Z) (flag output : string) :
    records g es g' ->
    records g (es ++ [make_entry ts code flag output g'])%list
            (_add_run_to_history ts code flag output g').

(** What the handler shows for the entry [e]. *)
Definition show_entry (e : entry) (g : gui) : gui :=
  set_cursor_label "> HISTORY VIEW _"
    (set_output_text (output e) g).

(** The snapshot layout in the words of the specification: the banner, the
    header [=== OUTPUT ===] and stdout when stdout is not empty, the header
    [=== ERRORS ===] and stderr when stderr is not empty, the exit-code
    line. *)
Definition spec_full_output (banner stdout stderr exit_line : string)
  : string :=
  banner
    ++ (if Str.truthy stdout then "=== OUTPUT ===" ++ stdout else "")
    ++ (if Str.truthy stderr then "=== ERRORS ===" ++ stderr else "")
    ++ exit_line.

(** The snapshot layout of [run_tests]. *)
Definition full_output_of (g : gui) (path flag stdout stderr : string)
           (return_code : Z) : string :=
  boot_banner g path flag ++ output_block stdout ++ errors_block stderr
    ++ exit_code_line return_code ++ Str.nl.

(** ** Sample environments and windows *)

Module Sample.

(** A child process that prints two failing-collection errors. *)
Definition env_errors : env :=
  mkEnv "/usr/bin/python3"
        (fun _ => Completed "2 errors in 0.5s" "ImportError: no module" 2)
        "12:00:00".

(** A host on which the interpreter cannot be started. *)
Definition env_missing : env :=
  mkEnv "/nonexistent/python"
        (fun _ => Raised (Exc "[Errno 2] No such file or directory"))
        "12:00:00".

(** The window after the user picked a test file. *)
Definition picked : gui :=
  mkGui (Some "/tmp/t/test_a.py") false "" "" 0 0 0 0 0 [] "Normal" "" [] ""
        "Total: 0" "Passed: 0" "Failed: 0" "Errors: 0" "Skipped: 0".

(** Six records in a row with outputs [run1] .. [run6]. *)
Definition g1 : gui := _add_run_to_history "12:00:01" 0 "Normal" "run1" picked.
Definition g2 : gui := _add_run_to_history "12:00:02" 0 "Normal" "run2" g1.
Definition g3 : gui := _add_run_to_history "12:00:03" 1 "-x" "run3" g2.
Definition g4 : gui := _add_run_to_history "12:00:04" 0 "-q" "run4" g3.
Definition g5 : gui := _add_run_to_history "12:00:05" 0 "-vv" "run5" g4.
Definition g6 : gui := _add_run_to_history "12:00:06" 0 "Normal" "run6" g5.

Definition six_entries : list entry :=
  [ make_entry "12:00:01" 0 "Normal" "run1" picked;
    make_entry "12:00:02" 0 "Normal" "run2" g1;
    make_entry "12:00:03" 1 "-x" "run3" g2;
    make_entry "12:00:04" 0 "-q" "run4" g3;
    make_entry "12:00:05" 0 "-vv" "run5" g4;
    make_entry "12:00:06" 0 "Normal" "run6" g5 ].

End Sample.

(** ** Further notions used to state properties of the parser *)

Definition counts_zero : counts_t := mkCounts 0 0 0 0 0.

(** Field by field sum of two counts. *)
Definition counts_add (a b : counts_t) : counts_t :=
  mkCounts (total a + total b) (passed a + passed b) (failed a + failed b)
           (errors a + errors b) (skipped a + skipped b).

Definition tally_add (a b : Tally.t) : Tally.t :=
  Tally.mk (Tally.passed a + Tally.passed b) (Tally.failed a + Tally.failed b)
           (Tally.errors a + Tally.errors b)
           (Tally.skipped a + Tally.skipped b).

(** None of the four texts that make a line a candidate occurs in [text]. *)
Definition no_keyword (text : string) : bool :=
  negb (Str.contains " passed" text) && negb (Str.contains " failed" text)
  && negb (Str.contains " skipped" text) && negb (Str.contains " error" text).

(** The numbers the pattern of [key] finds on the candidate lines of
    [text], added up. *)
Definition key_sum (key text : string) : N :=
  sum_N (flat_map (fun line =>
                     if is_candidate line then Re.finditer key line else [])
                  (Str.splitlines text)).

(** ** Further notions used to state properties of a run *)

(** The text of the status label after a run. *)
Definition run_label (return_code : Z) (c : counts_t) : string :=
  if (0 <? failed c)%N || (0 <? errors c)%N || negb (return_code =? 0)%Z
  then "> RUN COMPLETE (ISSUES) _"
  else "> RUN COMPLETE (OK) _".

(** What [run_tests] has written to the terminal when the child process
    has returned. *)
Definition shown_after_run (g : gui) (path stdout stderr : string)
           (return_code : Z) : string :=
  boot_banner g path (flag_var g) ++ output_block stdout
    ++ errors_block stderr ++ exit_code_line return_code.

(** The window a completed run leaves, written as one update of the
    window it started from. *)
Definition after_run (E : env) (g : gui) (path stdout stderr : string)
           (return_code : Z) : gui :=
  let combined := stdout ++ Str.nl ++ stderr in
  let shown := shown_after_run g path stdout stderr return_code in
  set_cursor_label
    (run_label return_code (parse_counts combined))
    (_add_run_to_history (now E) return_code (flag_var g) (shown ++ Str.nl)
       (set_output_text shown
          (_parse_test_summary combined (set_last stdout stderr g)))).

(** The window an interrupted run leaves: only the banner was written. *)
Definition after_escape (g : gui) (path : string) : gui :=
  set_output_text (boot_banner g path (flag_var g)) g.

(** The list box shows the history, newest first. *)
Definition listbox_in_step (g : gui) : Prop :=
  history_listbox g = map summary (rev (run_history g)).

(** The five HUD labels show the five counters. *)
Definition labels_in_step (g : gui) : Prop :=
  summary_total g = "Total: " ++ Str.of_N (tests_total g)
  /\ summary_passed g = "Passed: " ++ Str.of_N (tests_passed g)
  /\ summary_failed g = "Failed: " ++ Str.of_N (tests_failed g)
  /\ summary_errors g = "Errors: " ++ Str.of_N (tests_errors g)
  /\ summary_skipped g = "Skipped: " ++ Str.of_N (tests_skipped g).

(** A history entry as [run_tests] stores them: its row is the one its
    fields give, its snapshot is not empty and its total is the sum of its
    four counts. *)
Definition entry_ok (e : entry) : Prop :=
  summary e = summary_of e
  /\ Str.truthy (output e) = true
  /\ total (counts e)
     = (passed (counts e) + failed (counts e) + errors (counts e)
        + skipped (counts e))%N
  /\ target_name e <> "".

(** What every window reached from [init] satisfies. *)
Definition window_ok (g : gui) : Prop :=
  listbox_in_step g
  /\ labels_in_step g
  /\ List.length (run_history g) <= 5
  /\ tests_total g
     = (tests_passed g + tests_failed g + tests_errors g
        + tests_skipped g)%N
  /\ Forall entry_ok (run_history g).

(** ** The rest of the window: buttons, mode, status cursor, scanline *)

Module Str2.
Import Str.

(** [s.lstrip()]: white space is what [str.isspace] accepts, the class of
    [is_space]. *)
Fixpoint lstrip (s : string) : string :=
  match s with
  | "" => ""
  | String c s' => if is_space c then lstrip s' else s
  end.

(** [s.rstrip()] *)
Fixpoint rstrip (s : string) : string :=
  match s with
  | "" => ""
  | String c s' =>
      match rstrip s' with
      | "" => if is_space c then "" else String c ""
      | String d r => String c (String d r)
      end
  end.

(** [s.strip()] *)
Definition strip (s : string) : string := rstrip (lstrip s).

(** [s.endswith(c)] for a one-character text. *)
Fixpoint endswith_char (c : ascii) (s : string) : bool :=
  match s with
  | "" => false
  | String d "" => Ascii.eqb d c
  | String _ s' => endswith_char c s'
  end.

(** [s[:-1]] *)
Fixpoint drop_last (s : string) : string :=
  match s with
  | "" => ""
  | String _ "" => ""
  | String c s' => String c (drop_last s')
  end.

Fixpoint all_space (s : string) : bool :=
  match s with
  | "" => true
  | String c s' => is_space c && all_space s'
  end.

End Str2.

(** A [tk.Button]: its text, whether it is enabled, its background. *)
Record button : Type := mkButton {
  b_text : string;
  b_enabled : bool;
  b_bg : string
}.

Definition NEON_PINK : string := "#ff00ff".

Record window : Type := mkWindow {
  core : gui;
  mode_var : string;
  select_button : button;
  run_button : button;
  path_label : string;
  cursor_on : bool;
  boot_in_progress : bool;
  scan_x : Z;
  (** the rectangle tagged [scanline] on [scan_canvas], if any *)
  scanline : option (Z * Z * Z * Z)
}.

Definition set_core (g : gui) (w : window) : window :=
  mkWindow g (mode_var w) (select_button w) (run_button w) (path_label w)
           (cursor_on w) (boot_in_progress w) (scan_x w) (scanline w).

Definition set_flag_var (v : string) (g : gui) : gui :=
  mkGui (selected_path g) (is_directory g) (last_stdout g) (last_stderr g)
        (tests_passed g) (tests_failed g) (tests_errors g) (tests_skipped g)
        (tests_total g) (run_history g) v (output_text g)
        (history_listbox g) (cursor_label g) (summary_total g)
        (summary_passed g) (summary_failed g) (summary_errors g)
        (summary_skipped g).

Definition set_target (p : option string) (d : bool) (g : gui) : gui :=
  mkGui p d (last_stdout g) (last_stderr g)
        (tests_passed g) (tests_failed g) (tests_errors g) (tests_skipped g)
        (tests_total g) (run_history g) (flag_var g) (output_text g)
        (history_listbox g) (cursor_label g) (summary_total g)
        (summary_passed g) (summary_failed g) (summary_errors g)
        (summary_skipped g).

(** The window when [__init__] returns: the boot has not started, the
    status label reads [> BOOTING _], both buttons are disabled. *)
Definition window_init : window :=
  mkWindow (set_cursor_label "> BOOTING _" init) "file"
           (mkButton "SELECT TARGET" false "#333333")
           (mkButton "RUN PYTEST" false "#555555")
           "// no target selected" true true 0 None.

Definition _boot_lines : list string :=
  [ "[CYBERTEST v1.0.0] initializing diagnostic core...";
    "[OK]   loading neon theme shaders";
    "[OK]   linking pytest runtime module";
    "[OK]   scanning local filesystem for test targets";
    "[OK]   entropy pool charged";
    "[SYS]  console interface online";
    "";
    "[HINT] select a file or folder to begin test run.";
    "" ].

(** One call of [_boot_step]; the second component is the index of the
    call it schedules with [after], if it schedules one.  The indices that
    occur are 0 and those scheduled, none negative. *)
Definition _boot_step (index : Z) (w : window) : window * option Z :=
  if (index <? Z.of_nat (List.length _boot_lines))%Z then
    match py_index _boot_lines index with
    | Some line =>
        (set_core (insert_end (line ++ Str.nl) (core w)) w,
         Some (index + 1)%Z)
    | None => (w, None)
    end
  else
    (mkWindow (set_cursor_label "> READY _" (core w)) (mode_var w)
              (mkButton (b_text (select_button w)) true NEON_PINK)
              (run_button w) (path_label w) (cursor_on w) false (scan_x w)
              (scanline w),
     None).

(** [_start_boot_sequence]: the terminal is cleared and the first step
    runs at once. *)
Definition _start_boot_sequence (w : window) : window * option Z :=
  _boot_step 0 (set_core (set_output_text "" (core w)) w).

(** One call of [_animate_scanline]; [width] and [height] are what
    [scan_canvas] reports. *)
Definition _animate_scanline (width height : Z) (w : window) : window :=
  if (0 <? width)%Z && (0 <? height)%Z then
    let x1 := scan_x w in
    let x2 := (scan_x w + 80)%Z in
    let x2 := if (width <? x2)%Z then width else x2 in
    let sx := (scan_x w + 12)%Z in
    let sx := if (width <? sx)%Z then (-80)%Z else sx in
    mkWindow (core w) (mode_var w) (select_button w) (run_button w)
             (path_label w) (cursor_on w) (boot_in_progress w) sx
             (Some (x1, 0%Z, x2, height))
  else
    mkWindow (core w) (mode_var w) (select_button w) (run_button w)
             (path_label w) (cursor_on w) (boot_in_progress w) (scan_x w)
             None.

(** One call of [_blink_cursor]. *)
Definition _blink_cursor (w : window) : window :=
  let text := cursor_label (core w) in
  let text :=
    if cursor_on w then
      if Str2.endswith_char "_" text then Str2.drop_last text ++ " "
      else text
    else
      if negb (Str2.endswith_char "_" text) then Str2.rstrip text ++ "_"
      else text in
  mkWindow (set_cursor_label text (core w)) (mode_var w) (select_button w)
           (run_button w) (path_label w) (negb (cursor_on w))
           (boot_in_progress w) (scan_x w) (scanline w).

Definition _on_mode_change (w : window) : window :=
  let mode := mode_var w in
  let sb :=
    if String.eqb mode "file"
    then mkButton "SELECT FILE" (b_enabled (select_button w))
                  (b_bg (select_button w))
    else mkButton "SELECT FOLDER" (b_enabled (select_button w))
                  (b_bg (select_button w)) in
  mkWindow (set_output_text "" (set_target None false (core w)))
           mode sb
           (mkButton (b_text (run_button w)) false "#555555")
           "// no target selected"
           (cursor_on w) (boot_in_progress w) (scan_x w) (scanline w).

(** A click on one of the two radio buttons: Tk stores the button's value
    in [mode_var] and calls [_on_mode_change]. *)
Definition click_radio (value : string) (w : window) : window :=
  _on_mode_change
    (mkWindow (core w) value (select_button w) (run_button w) (path_label w)
              (cursor_on w) (boot_in_progress w) (scan_x w) (scanline w)).

(** [select_path]; [picked] is what the file or folder dialog returns,
    the empty text when it is cancelled. *)
Definition select_path (picked : string) (w : window) : window :=
  let mode := mode_var w in
  let is_directory := negb (String.eqb mode "file") in
  if negb (Str.truthy picked) then w
  else
    let label_prefix := if negb is_directory then "// file: "
                        else "// folder: " in
    mkWindow
      (insert_end
         ("[READY] target locked. execute RUN PYTEST to begin."
            ++ Str.nl ++ Str.nl)
         (set_output_text "" (set_target (Some picked) is_directory (core w))))
      mode (select_button w)
      (mkButton (b_text (run_button w)) true NEON_PINK)
      (label_prefix ++ picked)
      (cursor_on w) (boot_in_progress w) (scan_x w) (scanline w).

(** [run_tests] on the whole window. *)
Definition run_tests_window (E : env) (w : window) : window :=
  match run_tests E (core w) with
  | Finished g => set_core g w
  | Escaped g => set_core g w
  end.

Definition select_history (selection : list Z) (w : window) : window :=
  match _on_history_select selection (core w) with
  | Some g => set_core g w
  | None => w
  end.

(** ** Saving the terminal *)

Inductive effect : Type :=
| Showinfo (title message : string)
| Showerror (title message : string)
(** the [with open(...)] block ran to its end: the file holds [content] *)
| Written (file_path content : string).

Definition _ensure_output_exists (g : gui) : bool * list effect :=
  let content := Str2.strip (get_all g) in
  if negb (Str.truthy content)
  then (false,
        [Showinfo "No output" "No terminal feed yet. Run pytest first."])
  else (true, []).

(** [file_path] is what the save dialog returns (empty when cancelled);
    [os_error] is the text of the [OSError] that opening or writing the
    file raises, if it raises one. *)
Definition save_output_txt (file_path : string) (os_error : option string)
           (g : gui) : list effect :=
  let (ok, shown) := _ensure_output_exists g in
  if negb ok then shown
  else if negb (Str.truthy file_path) then []
  else
    let content := get_all g in
    match os_error with
    | None =>
        [Written file_path content;
         Showinfo "Saved" ("Output saved to:" ++ Str.nl ++ file_path)]
    | Some exc =>
        [Showerror "Error" ("Could not save file:" ++ Str.nl ++ exc)]
    end.

Definition html_head : string :=
  "<!DOCTYPE html>" ++ Str.nl
  ++ "<html>" ++ Str.nl ++ "<head>" ++ Str.nl
  ++ "<meta charset='utf-8'>" ++ Str.nl
  ++ "<title>pytest output</title>" ++ Str.nl
  ++ "<style>" ++ Str.nl
  ++ "body { background:#050814; color:#f5f5f5; "
  ++ "font-family:Consolas,monospace; }" ++ Str.nl
  ++ "h2 { color:#00f5ff; }" ++ Str.nl
  ++ "pre { background:#0b1020; padding:1rem; border:1px solid #3dffb8; "
  ++ "color:#e0e0ff; white-space:pre-wrap; }" ++ Str.nl
  ++ "</style>" ++ Str.nl
  ++ "</head>" ++ Str.nl ++ "<body>" ++ Str.nl
  ++ "<h2>CYBERTEST // pytest output</h2>" ++ Str.nl
  ++ "<pre>" ++ Str.nl.

Definition html_tail : string :=
  Str.nl ++ "</pre>" ++ Str.nl ++ "</body>" ++ Str.nl ++ "</html>" ++ Str.nl.

Definition html_of (content : string) : string :=
  html_head ++ content ++ html_tail.

Definition save_output_html (file_path : string) (os_error : option string)
           (g : gui) : list effect :=
  let (ok, shown) := _ensure_output_exists g in
  if negb ok then shown
  else if negb (Str.truthy file_path) then []
  else
    let content := get_all g in
    let html := html_of content in
    match os_error with
    | None =>
        [Written file_path html;
         Showinfo "Saved" ("HTML output saved to:" ++ Str.nl ++ file_path)]
    | Some exc =>
        [Showerror "Error" ("Could not save file:" ++ Str.nl ++ exc)]
    end.

(** The files an action wrote. *)
Definition written (effects : list effect) : list (string * string) :=
  flat_map (fun e => match e with
                     | Written p c => [(p, c)]
                     | _ => []
                     end) effects.

(** ** Windows reached by using the program *)

Inductive reachable : window -> Prop :=
| reach_init : reachable window_init
| reach_boot_start (w : window) :
    reachable w -> reachable (fst (_start_boot_sequence w))
| reach_boot_step (w : window) (index : Z) :
    reachable w -> (0 <= index)%Z -> reachable (fst (_boot_step index w))
| reach_scanline (w : window) (width height : Z) :
    reachable w -> reachable (_animate_scanline width height w)
| reach_blink (w : window) :
    reachable w -> reachable (_blink_cursor w)
| reach_radio (w : window) (value : string) :
    reachable w -> value = "file" \/ value = "folder" ->
    reachable (click_radio value w)
| reach_select (w : window) (picked : string) :
    reachable w -> reachable (select_path picked w)
| reach_flag (w : window) (value : string) :
    reachable w ->
    In value ["Normal"; "-q"; "-vv"; "-x"] ->
    reachable (set_core (set_flag_var value (core w)) w)
(** the terminal is an editable text widget *)
| reach_edit (w : window) (typed : string) :
    reachable w -> reachable (set_core (set_output_text typed (core w)) w)
| reach_run (w : window) (E : env) :
    reachable w -> reachable (run_tests_window E w)
| reach_history (w : window) (selection : list Z) :
    reachable w -> reachable (select_history selection w).

(** The target, the run button and the path label tell the same story. *)
Definition target_ok (w : window) : Prop :=
  (selected_path (core w) = None
   /\ is_directory (core w) = false
   /\ b_enabled (run_button w) = false
   /\ path_label w = "// no target selected")
  \/ exists p,
       selected_path (core w) = Some p
       /\ p <> ""
       /\ b_enabled (run_button w) = true
       /\ is_directory (core w) = negb (String.eqb (mode_var w) "file")
       /\ path_label w
          = (if is_directory (core w) then "// folder: " else "// file: ")
              ++ p.

(** The history entry a completed run stores. *)
Definition new_entry (E : env) (g : gui) (path stdout stderr : string)
           (return_code : Z) : entry :=
  let combined := stdout ++ Str.nl ++ stderr in
  let shown := shown_after_run g path stdout stderr return_code in
  make_entry (now E) return_code (flag_var g) (shown ++ Str.nl)
             (set_output_text shown
                (_parse_test_summary combined (set_last stdout stderr g))).

(** The window that [run_tests] leaves, finished or not. *)
Definition left_by (r : run_result) : gui :=
  match r with
  | Finished g => g
  | Escaped g => g
  end.

(** The window [w] with [t] as the text of the status label. *)
Definition relabel (t : string) (w : window) : window :=
  mkWindow (set_cursor_label t (core w)) (mode_var w) (select_button w)
           (run_button w) (path_label w) (cursor_on w) (boot_in_progress w)
           (scan_x w) (scanline w).

(** The status text without its final underscore, if it has one. *)
Definition label_body (t : string) : string :=
  if Str2.endswith_char "_" t then Str2.drop_last t else t.

Definition is_some {A : Type} (o : option A) : bool :=
  match o with Some _ => true | None => false end.

(** What every window reached from [window_init] satisfies. *)
Definition reachable_ok (w : window) : Prop :=
  window_ok (core w)
  /\ target_ok w
  /\ (mode_var w = "file" \/ mode_var w = "folder")
  /\ In (flag_var (core w)) ["Normal"; "-q"; "-vv"; "-x"]
  /\ b_enabled (select_button w) = negb (boot_in_progress w).

Module Sample2.

(** A child process that is interrupted from the keyboard. *)
Definition env_interrupted : env :=
  mkEnv "/usr/bin/python3" (fun _ => Raised BaseExc) "12:00:00".

(** Boot over, folder mode chosen, a folder picked, flag [-x] chosen. *)
Definition folder_picked : window :=
  set_core
    (set_flag_var "-x"
       (core (select_path "/srv/proj/tests/"
                (click_radio "folder" (fst (_boot_step 9 window_init))))))
    (select_path "/srv/proj/tests/"
       (click_radio "folder" (fst (_boot_step 9 window_init)))).

End Sample2.

(** ** The interpreter's limit on integer conversions

    CPython 3.11 and later (and the security releases of 3.7 to 3.10)
    refuse to turn a text of more than [sys.get_int_max_str_digits()]
    digits into an [int], and an [int] of more than that many decimal
    digits into text: both raise [ValueError].  The limit is 4300 unless
    it is changed; 0 switches it off, as on the interpreters before the
    limit existed; other values below 640 cannot be set.  The definitions
    above describe an interpreter without the limit; the ones in this
    section take the limit as a parameter and follow the same source lines
    with the exceptions written out. *)

Module Checked.

(** [digits] digit characters are too many under [limit]. *)
Definition too_long (limit digits : nat) : bool :=
  (0 <? limit)%nat && (limit <? digits)%nat.

(** [int(ds)]; [None] is [ValueError]. *)
Definition int_checked (limit : nat) (ds : string) : option N :=
  if too_long limit (length ds) then None else Some (Str.int_of_digits ds).

(** [f"{n}"] for a counter; [None] is [ValueError]. *)
Definition format_N (limit : nat) (n : N) : option string :=
  if too_long limit (length (Str.of_N n)) then None else Some (Str.of_N n).

(** [re.finditer] as in [Re.finditer_from], yielding [match.group(1)]
    itself. *)
Fixpoint finditer_groups_from (key : string) (skip : nat) (s : string)
  : list string :=
  match s with
  | "" => []
  | String _ s' =>
      match skip with
      | S n => finditer_groups_from key n s'
      | O =>
          match Re.match_here key s with
          | Some (ds, rest) =>
              ds :: finditer_groups_from key (length s - rest - 1) s'
          | None => finditer_groups_from key 0 s'
          end
      end
  end.

Definition finditer_groups (key s : string) : list string :=
  finditer_groups_from key 0 s.

(** One turn of the innermost loop: [value = int(match.group(1))] and the
    [if label == ...] chain.  [None] is the [ValueError] on its way out of
    the loops. *)
Definition add_group (limit : nat) (label : string)
           (acc : option Tally.t) (ds : string) : option Tally.t :=
  match acc with
  | None => None
  | Some t =>
      match int_checked limit ds with
      | None => None
      | Some value => Some (add_value label value t)
      end
  end.

Definition scan_key (limit : nat) (line : string) (acc : option Tally.t)
           (kl : string * string) : option Tally.t :=
  fold_left (add_group limit (snd kl)) (finditer_groups (fst kl) line) acc.

Definition scan_line (limit : nat) (acc : option Tally.t) (line : string)
  : option Tally.t :=
  if is_candidate line
  then fold_left (scan_key limit line) pattern_map acc
  else acc.

(** The loops of [_parse_test_summary]; [None] when [int] raised. *)
Definition tally_of (limit : nat) (text : string) : option Tally.t :=
  fold_left (scan_line limit) (Str.splitlines text) (Some Tally.zero).

(** All digit groups that [_parse_test_summary] hands to [int]. *)
Definition groups_of (text : string) : list string :=
  flat_map
    (fun line =>
       if is_candidate line
       then flat_map (fun kl : string * string => finditer_groups (fst kl) line)
                     pattern_map
       else [])
    (Str.splitlines text).

(** How a method ended: it returned, or a [ValueError] left it; either way
    with the window it leaves. *)
Inductive attempt : Type :=
| Returned (g : gui)
| ValueError (g : gui).

(** The five assignments [self.tests_* = ...]. *)
Definition set_counters (c : counts_t) (g : gui) : gui :=
  mkGui (selected_path g) (is_directory g) (last_stdout g) (last_stderr g)
        (passed c) (failed c) (errors c) (skipped c) (total c)
        (run_history g) (flag_var g) (output_text g) (history_listbox g)
        (cursor_label g) (summary_total g) (summary_passed g)
        (summary_failed g) (summary_errors g) (summary_skipped g).

(** The texts of the five HUD labels, in the order they are set. *)
Definition set_labels (l1 l2 l3 l4 l5 : string) (g : gui) : gui :=
  mkGui (selected_path g) (is_directory g) (last_stdout g) (last_stderr g)
        (tests_passed g) (tests_failed g) (tests_errors g) (tests_skipped g)
        (tests_total g) (run_history g) (flag_var g) (output_text g)
        (history_listbox g) (cursor_label g) l1 l2 l3 l4 l5.

(** [_parse_test_summary]: the counters are assigned once the loops are
    through; the labels are then set one by one, each after its text has
    been formatted. *)
Definition _parse_test_summary (limit : nat) (text : string) (g : gui)
  : attempt :=
  match tally_of limit text with
  | None => ValueError g
  | Some t =>
      let total :=
        (Tally.passed t + Tally.failed t + Tally.errors t
         + Tally.skipped t)%N in
      let g :=
        set_counters (mkCounts total (Tally.passed t) (Tally.failed t)
                               (Tally.errors t) (Tally.skipped t)) g in
      match format_N limit total with
      | None => ValueError g
      | Some s1 =>
          let g := set_labels ("Total: " ++ s1) (summary_passed g)
                              (summary_failed g) (summary_errors g)
                              (summary_skipped g) g in
          match format_N limit (Tally.passed t) with
          | None => ValueError g
          | Some s2 =>
              let g := set_labels (summary_total g) ("Passed: " ++ s2)
                                  (summary_failed g) (summary_errors g)
                                  (summary_skipped g) g in
              match format_N limit (Tally.failed t) with
              | None => ValueError g
              | Some s3 =>
                  let g := set_labels (summary_total g) (summary_passed g)
                                      ("Failed: " ++ s3) (summary_errors g)
                                      (summary_skipped g) g in
                  match format_N limit (Tally.errors t) with
                  | None => ValueError g
                  | Some s4 =>
                      let g := set_labels (summary_total g)
                                          (summary_passed g)
                                          (summary_failed g)
                                          ("Errors: " ++ s4)
                                          (summary_skipped g) g in
                      match format_N limit (Tally.skipped t) with
                      | None => ValueError g
                      | Some s5 =>
                          Returned
                            (set_labels (summary_total g) (summary_passed g)
                                        (summary_failed g) (summary_errors g)
                                        ("Skipped: " ++ s5) g)
                      end
                  end
              end
          end
      end
  end.

(** How [run_tests] ended. *)
Inductive run_outcome : Type :=
| Done (g : gui)
(** an exception that is no [Exception] left [run_pytest] *)
| Interrupted (g : gui)
(** a [ValueError] left [_parse_test_summary] *)
| ParserRaised (g : gui).

(** [run_tests].  The exit code is a process status and the counters have
    just been formatted when [_add_run_to_history] formats them again, so
    no conversion after the parser can raise. *)
Definition run_tests (limit : nat) (E : env) (g : gui) : run_outcome :=
  match selected_path g with
  | None => Done g
  | Some path =>
      if negb (Str.truthy path) then Done g
      else
        let flag := flag_var g in
        let g := set_output_text "" g in
        let g := insert_end ("[BOOT] pytest engaged on "
                               ++ target_type_of (is_directory g) ++ ":"
                               ++ Str.nl ++ path ++ Str.nl) g in
        let g := if flag_given (Some flag)
                 then insert_end ("[FLAG] " ++ flag ++ Str.nl) g
                 else g in
        let g := insert_end Str.nl g in
        match run_pytest E path (is_directory g) (Some flag) with
        | None => Interrupted g
        | Some (stdout, stderr, return_code) =>
            let g := set_last stdout stderr g in
            let g := if Str.truthy stdout
                     then insert_end (stdout ++ Str.nl)
                            (insert_end ("=== PYTEST OUTPUT ===" ++ Str.nl) g)
                     else g in
            let g := if Str.truthy stderr
                     then insert_end (stderr ++ Str.nl)
                            (insert_end ("=== PYTEST ERRORS ===" ++ Str.nl) g)
                     else g in
            let combined := stdout ++ Str.nl ++ stderr in
            match _parse_test_summary limit combined g with
            | ValueError g => ParserRaised g
            | Returned g =>
                let g := insert_end (Str.nl ++ "[EXIT CODE] "
                                       ++ Str.of_Z return_code ++ Str.nl) g in
                let full_output := get_all g in
                let g := _add_run_to_history (now E) return_code flag
                                             full_output g in
                Done
                  (if (0 <? tests_failed g)%N || (0 <? tests_errors g)%N
                      || negb (return_code =? 0)%Z
                   then set_cursor_label "> RUN COMPLETE (ISSUES) _" g
                   else set_cursor_label "> RUN COMPLETE (OK) _" g)
            end
        end
  end.

(** The window [run_tests] leaves, however it ended. *)
Definition left_by (r : run_outcome) : gui :=
  match r with
  | Done g => g
  | Interrupted g => g
  | ParserRaised g => g
  end.

(** The window when [_parse_test_summary] is called: banner and streams
    are on the terminal. *)
Definition before_parse (g : gui) (path stdout stderr : string) : gui :=
  set_output_text
    (boot_banner g path (flag_var g) ++ output_block stdout
       ++ errors_block stderr)
    (set_last stdout stderr g).

End Checked.

(** A text of [n] copies of the character [c]. *)
Fixpoint repeat_char (c : ascii) (n : nat) : string :=
  match n with
  | O => ""
  | S n' => String c (repeat_char c n')
  end.

(** The windows reached by using the program on an interpreter whose
    conversion limit is [limit]. *)
Inductive reachable_under (limit : nat) : window -> Prop :=
| under_init : reachable_under limit window_init
| under_boot_start (w : window) :
    reachable_under limit w ->
    reachable_under limit (fst (_start_boot_sequence w))
| under_boot_step (w : window) (index : Z) :
    reachable_under limit w -> (0 <= index)%Z ->
    reachable_under limit (fst (_boot_step index w))
| under_scanline (w : window) (width height : Z) :
    reachable_under limit w ->
    reachable_under limit (_animate_scanline width height w)
| under_blink (w : window) :
    reachable_under limit w -> reachable_under limit (_blink_cursor w)
| under_radio (w : window) (value : string) :
    reachable_under limit w -> value = "file" \/ value = "folder" ->
    reachable_under limit (click_radio value w)
| under_select (w : window) (picked : string) :
    reachable_under limit w -> reachable_under limit (select_path picked w)
| under_flag (w : window) (value : string) :
    reachable_under limit w ->
    In value ["Normal"; "-q"; "-vv"; "-x"] ->
    reachable_under limit (set_core (set_flag_var value (core w)) w)
| under_edit (w : window) (typed : string) :
    reachable_under limit w ->
    reachable_under limit (set_core (set_output_text typed (core w)) w)
| under_run (w : window) (E : env) :
    reachable_under limit w ->
    reachable_under limit
      (set_core (Checked.left_by (Checked.run_tests limit E (core w))) w)
| under_history (w : window) (selection : list Z) :
    reachable_under limit w ->
    reachable_under limit (select_history selection w).

(** The part of [window_ok] that does not speak of the HUD labels. *)
Definition data_ok (g : gui) : Prop :=
  listbox_in_step g
  /\ List.length (run_history g) <= 5
  /\ tests_total g
     = (tests_passed g + tests_failed g + tests_errors g
        + tests_skipped g)%N
  /\ Forall entry_ok (run_history g).

(** What every window reached under a limit satisfies. *)
Definition reachable_under_ok (limit : nat) (w : window) : Prop :=
  data_ok (core w)
  /\ target_ok w
  /\ (mode_var w = "file" \/ mode_var w = "folder")
  /\ In (flag_var (core w)) ["Normal"; "-q"; "-vv"; "-x"]
  /\ b_enabled (select_button w) = negb (boot_in_progress w)
  /\ (limit = 0 -> labels_in_step (core w)).

(** Every digit group in [l] is short enough for [int] under [limit]. *)
Definition fits_all (limit : nat) (l : list string) : bool :=
  forallb (fun ds => negb (Checked.too_long limit (length ds))) l.

(** Each of the five counts can be formatted under [limit]. *)
Definition counts_fit (limit : nat) (c : counts_t) : bool :=
  is_some (Checked.format_N limit (total c))
  && is_some (Checked.format_N limit (passed c))
  && is_some (Checked.format_N limit (failed c))
  && is_some (Checked.format_N limit (errors c))
  && is_some (Checked.format_N limit (skipped c)).

(** No character of [s] ends a line. *)
Fixpoint no_break (s : string) : bool :=
  match s with
  | "" => true
  | String c s' =>
      negb (Ascii.eqb c Str.CR) && negb (Str.is_linebreak c) && no_break s'
  end.

(** [run_tests] without limit, as an outcome under a limit. *)
Definition as_outcome (r : run_result) : Checked.run_outcome :=
  match r with
  | Finished g => Checked.Done g
  | Escaped g => Checked.Interrupted g
  end.

Module Sample3.

(** A child process that prints a count of 4301 digits. *)
Definition env_long : env :=
  mkEnv "/usr/bin/python3"
        (fun _ => Completed (repeat_char "9" 4301 ++ " passed") "" 0)
        "12:00:00".

(** The window a run under the default limit leaves with that process. *)
Definition after_long : window :=
  set_core
    (Checked.left_by
       (Checked.run_tests 4300 env_long (core Sample2.folder_picked)))
    Sample2.folder_picked.

End Sample3.

(** * Properties *)

(** ** Strings *)

Module StrFacts.
Import Str.

Lemma app_assoc (a b c : string) : (a ++ b) ++ c = a ++ (b ++ c).
Proof. induction a as [|x a IH]; simpl; [reflexivity | now rewrite IH]. Qed.

Lemma truthy_neq (s : string) : truthy s = true <-> s <> "".
Proof. destruct s; simpl; split; intro H; congruence. Qed.

Lemma startswith_app (p s : string) : startswith p (p ++ s) = true.
Proof.
  induction p as [|x p IH]; simpl; [reflexivity|].
  now rewrite Ascii.eqb_refl, IH.
Qed.

Lemma contains_head (p s : string) :
  startswith p s = true -> contains p s = true.
Proof. intro H. destruct s; simpl in *; rewrite H; reflexivity. Qed.

(** A text that is written somewhere in [s] is found by [in]. *)
Lemma contains_app (p a b : string) : contains p (a ++ (p ++ b)) = true.
Proof.
  induction a as [|x a IH]; simpl.
  - apply contains_head, startswith_app.
  - rewrite IH. apply orb_true_r.
Qed.

Lemma digit_not_space (c : ascii) : is_digit c = true -> is_space c = false.
Proof.
  destruct c as [[] [] [] [] [] [] [] []]; vm_compute; congruence.
Qed.

Lemma rev_append_rev_append (a b : string) :
  rev_append (rev_append a b) "" = rev_append b a.
Proof.
  revert b; induction a as [|x a IH]; intro b; simpl.
  - generalize ""; induction b as [|y b IHb]; intro c; simpl;
      [reflexivity | apply IHb].
  - apply IH.
Qed.
End StrFacts.

(** ** The regular expression *)

Module ReFacts.
Import Str StrFacts Re.

(** When whatever follows the repetition cannot start with a character
    of the class, giving characters back never helps: the repetition
    takes the whole run. *)
Lemma greedy_star_span {R : Type} (p : ascii -> bool)
      (k : string -> string -> option R) :
  (forall t c s, p c = true -> k t (String c s) = None) ->
  forall s taken,
    greedy_star p k taken s =
    let (a, b) := span p s in k (rev_append a taken) b.
Proof.
  intros Hk s; induction s as [|c s IH]; intro taken; simpl.
  - reflexivity.
  - destruct (p c) eqn:Hc; [|reflexivity].
    rewrite IH. destruct (span p s) as [a b]; simpl.
    destruct (k (rev_append a (String c taken)) b) eqn:Hr; [reflexivity|].
    now apply Hk.
Qed.

Lemma greedy_plus_span {R : Type} (p : ascii -> bool)
      (k : string -> string -> option R) :
  (forall t c s, p c = true -> k t (String c s) = None) ->
  forall s,
    greedy_plus p k s =
    let (a, b) := span p s in
    if truthy a then k (rev_append a "") b else None.
Proof.
  intros Hk [|c s]; simpl; [reflexivity|].
  destruct (p c) eqn:Hc; [|reflexivity].
  rewrite (greedy_star_span p k Hk).
  destruct (span p s) as [a b]; reflexivity.
Qed.

(** For a key that does not start with white space, the backtracking
    matcher finds what the longest runs give. *)
Lemma match_here_longest (k0 : ascii) (key s : string) :
  is_space k0 = false ->
  match_here (String k0 key) s = match_longest (String k0 key) s.
Proof.
  intro Hk0. unfold match_here, match_longest.
  rewrite greedy_plus_span.
  - destruct (span is_digit s) as [ds r1].
    destruct (truthy ds) eqn:Hds; simpl.
    + rewrite greedy_plus_span.
      * destruct (span is_space r1) as [ws r2].
        destruct (truthy ws); simpl; [|reflexivity].
        rewrite rev_append_rev_append. reflexivity.
      * intros t c r Hc. simpl.
        destruct (Ascii.eqb_spec k0 c) as [->|]; [congruence | reflexivity].
    + destruct (span is_space r1) as [ws r2]. reflexivity.
  - intros t c r Hc. simpl. now rewrite (digit_not_space c Hc).
Qed.

Lemma pattern_keys_longest (s : string) :
  Forall (fun kl => match_here (fst kl) s = match_longest (fst kl) s)
         pattern_map.
Proof.
  repeat constructor; simpl; apply match_here_longest; reflexivity.
Qed.
End ReFacts.

(** ** The summary parser *)

Module ParserFacts.

Lemma fold_passed (l : list N) (t : Tally.t) :
  fold_left (fun t' value => add_value "passed" value t') l t =
  Tally.mk (Tally.passed t + sum_N l) (Tally.failed t) (Tally.errors t)
           (Tally.skipped t).
Proof.
  revert t; induction l as [|v l IH]; intros [p f e s]; simpl.
  - now rewrite N.add_0_r.
  - rewrite IH; simpl. f_equal; lia.
Qed.

Lemma fold_failed (l : list N) (t : Tally.t) :
  fold_left (fun t' value => add_value "failed" value t') l t =
  Tally.mk (Tally.passed t) (Tally.failed t + sum_N l) (Tally.errors t)
           (Tally.skipped t).
Proof.
  revert t; induction l as [|v l IH]; intros [p f e s]; simpl.
  - now rewrite N.add_0_r.
  - rewrite IH; simpl. f_equal; lia.
Qed.

Lemma fold_errors (l : list N) (t : Tally.t) :
  fold_left (fun t' value => add_value "errors" value t') l t =
  Tally.mk (Tally.passed t) (Tally.failed t) (Tally.errors t + sum_N l)
           (Tally.skipped t).
Proof.
  revert t; induction l as [|v l IH]; intros [p f e s]; simpl.
  - now rewrite N.add_0_r.
  - rewrite IH; simpl. f_equal; lia.
Qed.

Lemma fold_skipped (l : list N) (t : Tally.t) :
  fold_left (fun t' value => add_value "skipped" value t') l t =
  Tally.mk (Tally.passed t) (Tally.failed t) (Tally.errors t)
           (Tally.skipped t + sum_N l).
Proof.
  revert t; induction l as [|v l IH]; intros [p f e s]; simpl.
  - now rewrite N.add_0_r.
  - rewrite IH; simpl. f_equal; lia.
Qed.

(** A candidate line adds, for each of the five keys in turn, the numbers
    of that key's matches: the matches of [error] and those of [errors]
    both go to the errors accumulator. *)
Lemma scan_line_sums (line : string) (t : Tally.t) :
  is_candidate line = true ->
  scan_line t line = line_sums line t.
Proof.
  intro Hc. unfold scan_line. rewrite Hc.
  unfold pattern_map, scan_key, line_sums; simpl.
  rewrite fold_passed, fold_failed, fold_errors, fold_errors, fold_skipped.
  reflexivity.
Qed.

Lemma scan_line_skip (line : string) (t : Tally.t) :
  is_candidate line = false -> scan_line t line = t.
Proof. intro Hc. unfold scan_line. now rewrite Hc. Qed.

End ParserFacts.

(** C1: every occurrence of <integer><whitespace><category-word> on a
    candidate line is to add its integer once to the accumulator of its
    category, so that ["2 errors in 0.5s"] gives errors = 2.  The code
    gives 4 there: the text ["2 errors"] is matched by the pattern of the
    key [error] and again by the pattern of the key [errors], and both keys
    feed the errors accumulator.  The singular ["1 error in 0.5s"] is
    counted once. *)
Theorem parse_two_errors_counts_four :
  errors (parse_counts "2 errors in 0.5s") = 4%N
  /\ total (parse_counts "2 errors in 0.5s") = 4%N
  /\ Re.finditer "error" "2 errors in 0.5s" = [2%N]
  /\ Re.finditer "errors" "2 errors in 0.5s" = [2%N]
  /\ errors (parse_counts "1 error in 0.5s") = 1%N.
Proof. repeat split; vm_compute; reflexivity. Qed.

(** C3: the parser maps ["3 passed, 1 failed, 2 skipped in 0.12s"] to
    passed 3, failed 1, errors 0, skipped 2, total 6; ["5 passed in 0.02s"]
    to passed 5 and total 5; and ["no tests ran"] to all zeros. *)
Theorem parse_scenarios :
  parse_counts "3 passed, 1 failed, 2 skipped in 0.12s" = mkCounts 6 3 1 0 2
  /\ parse_counts "5 passed in 0.02s" = mkCounts 5 5 0 0 0
  /\ parse_counts "no tests ran" = mkCounts 0 0 0 0 0.
Proof. repeat split; vm_compute; reflexivity. Qed.


(** ** The run history *)

Module HistoryFacts.

Section Last5.
Context {A : Type}.
Implicit Types (l h es : list A).

Lemma last5_length l : List.length (last5 l) = Nat.min 5 (List.length l).
Proof. unfold last5. rewrite length_skipn. lia. Qed.

Lemma last5_short l : List.length l <= 5 -> last5 l = l.
Proof.
  intro H. unfold last5.
  replace (List.length l - 5) with 0 by lia. reflexivity.
Qed.

(** Five or more later elements push every earlier one out. *)
Lemma last5_app_full h es :
  5 <= List.length es -> last5 (h ++ es)%list = last5 es.
Proof.
  intro H. unfold last5. rewrite skipn_app, length_app.
  rewrite skipn_all2 by lia. simpl. f_equal. lia.
Qed.

(** Cutting before appending loses nothing that cutting afterwards
    keeps. *)
Lemma last5_app_cut h es :
  last5 (last5 h ++ es)%list = last5 (h ++ es)%list.
Proof.
  destruct (Nat.le_gt_cases (List.length h) 5) as [Hle|Hgt].
  - rewrite (last5_short h) by exact Hle. reflexivity.
  - unfold last5 at 1 3. rewrite !length_app, last5_length.
    unfold last5.
    replace (skipn (List.length h - 5) h ++ es)%list
      with (skipn (List.length h - 5) (h ++ es)%list).
    + rewrite skipn_skipn. f_equal. lia.
    + rewrite skipn_app.
      replace (List.length h - 5 - List.length h) with 0 by lia.
      reflexivity.
Qed.

Lemma last5_Forall (P : A -> Prop) l : Forall P l -> Forall P (last5 l).
Proof.
  intro H. unfold last5.
  rewrite <- (firstn_skipn (List.length l - 5) l) in H.
  now apply Forall_app in H.
Qed.

(** After an append the cut keeps the new element and at most four
    older ones. *)
Lemma last5_snoc h (x : A) :
  last5 (h ++ [x])%list = (skipn (List.length h - 4) h ++ [x])%list.
Proof.
  unfold last5. rewrite length_app, skipn_app. simpl List.length.
  replace (List.length h + 1 - 5) with (List.length h - 4) by lia.
  replace (List.length h - 4 - List.length h) with 0 by lia.
  reflexivity.
Qed.
End Last5.

Lemma newest_record (e : entry) (h : list entry) :
  newest (record e h) = Some e.
Proof.
  unfold newest, record. rewrite last5_snoc, rev_app_distr. reflexivity.
Qed.

Lemma record_length (e : entry) (h : list entry) :
  List.length (record e h) <= 5.
Proof. unfold record. rewrite last5_length. lia. Qed.

(** What a sequence of records leaves: nothing changed if nothing was
    recorded, and otherwise the last five of the old history followed by
    the recorded entries. *)
Lemma records_history (g g' : gui) (es : list entry) :
  records g es g' ->
  (es = [] /\ run_history g' = run_history g)
  \/ run_history g' = last5 (run_history g ++ es)%list.
Proof.
  induction 1 as [g | g g' g'' es _ IH Hsame
                 | g g' es ts code flag out _ IH].
  - left; split; reflexivity.
  - rewrite Hsame. exact IH.
  - right. simpl. unfold record.
    destruct IH as [[-> ->] | ->].
    + reflexivity.
    + rewrite last5_app_cut, <- List.app_assoc. reflexivity.
Qed.

Lemma status_ok_iff (c : Z) (f e : N) :
  status_of c f e = "OK" <-> c = 0%Z /\ f = 0%N /\ e = 0%N.
Proof.
  unfold status_of.
  destruct (Z.eqb_spec c 0), (N.ltb_spec 0 f), (N.ltb_spec 0 e); simpl;
    split; intro Hst; try discriminate; try reflexivity; lia.
Qed.

Lemma status_issue_iff (c : Z) (f e : N) :
  status_of c f e = "ISSUE" <-> ~ (c = 0%Z /\ f = 0%N /\ e = 0%N).
Proof.
  unfold status_of.
  destruct (Z.eqb_spec c 0), (N.ltb_spec 0 f), (N.ltb_spec 0 e); simpl;
    split; intro Hst; try discriminate; try reflexivity; lia.
Qed.
End HistoryFacts.

(** C4: the status written for a history entry is OK exactly when the exit
    code is 0 and the failed and errors counts are 0, and ISSUE otherwise;
    exit code 1 gives ISSUE whatever the counts; and the status, like the
    whole history row, is recomputed from the fields the entry stores. *)
Theorem classification_ok_iff
        (ts : string) (code : Z) (flag out : string) (g : gui) :
  let e := make_entry ts code flag out g in
  newest (run_history (_add_run_to_history ts code flag out g)) = Some e
  /\ classification e = status_of code (tests_failed g) (tests_errors g)
  /\ summary e = summary_of e
  /\ (classification e = "OK"
      <-> exit_code e = 0%Z /\ failed (counts e) = 0%N
          /\ errors (counts e) = 0%N)
  /\ (classification e = "ISSUE"
      <-> ~ (exit_code e = 0%Z /\ failed (counts e) = 0%N
             /\ errors (counts e) = 0%N))
  /\ (forall f n : N, status_of 1 f n = "ISSUE")
  /\ (Forall (fun x => summary x = summary_of x) (run_history g) ->
      Forall (fun x => summary x = summary_of x)
             (run_history (_add_run_to_history ts code flag out g))).
Proof.
  intro e.
  split; [apply HistoryFacts.newest_record|].
  split; [reflexivity|].
  split; [reflexivity|].
  split; [apply HistoryFacts.status_ok_iff|].
  split; [apply HistoryFacts.status_issue_iff|].
  split.
  - intros f n. apply HistoryFacts.status_issue_iff. intros [H _]. discriminate.
  - intro H. simpl. apply HistoryFacts.last5_Forall, Forall_app. split.
    + exact H.
    + constructor; [reflexivity | constructor].
Qed.

(** A run that exits with 0 but left one failed test is an ISSUE, and its
    row says so. *)
Lemma classification_ok_iff_witness :
  classification
    (make_entry "12:00:00" 0 "Normal" "out"
       (_parse_test_summary "4 passed, 1 failed in 0.3s" Sample.picked))
  = "ISSUE"
  /\ summary
       (make_entry "12:00:00" 0 "Normal" "out"
          (_parse_test_summary "4 passed, 1 failed in 0.3s" Sample.picked))
     = "12:00:00 | ISSUE | code=0 | T:5 P:4 F:1 E:0 S:0 | FILE:test_a.py"
  /\ classification (make_entry "12:00:00" 0 "Normal" "out" Sample.picked)
     = "OK".
Proof.
  destruct (classification_ok_iff
              "12:00:00" 0 "Normal" "out"
              (_parse_test_summary "4 passed, 1 failed in 0.3s" Sample.picked))
    as (_ & _ & Hsum & _ & Hissue & _).
  destruct (classification_ok_iff "12:00:00" 0 "Normal" "out" Sample.picked)
    as (_ & _ & _ & Hok & _).
  split.
  - apply Hissue. intros (_ & Hf & _). vm_compute in Hf. discriminate Hf.
  - split.
    + rewrite Hsum. vm_compute. reflexivity.
    + apply Hok. repeat split.
Defined.

(** C6: after more than five records the history has exactly five entries,
    and they are the five entries recorded last, oldest first, whatever the
    history held before. *)
Theorem history_keeps_last_five (g g' : gui) (es : list entry) :
  records g es g' ->
  5 < List.length es ->
  run_history g' = skipn (List.length es - 5) es
  /\ List.length (run_history g') = 5.
Proof.
  intros R Hlen.
  destruct (HistoryFacts.records_history g g' es R) as [[-> _] | ->].
  - simpl in Hlen. lia.
  - rewrite HistoryFacts.last5_app_full by lia. split.
    + reflexivity.
    + rewrite HistoryFacts.last5_length. lia.
Qed.

(** Six records with outputs run1 .. run6 leave run2 .. run6. *)
Lemma history_keeps_last_five_witness :
  5 < List.length Sample.six_entries
  /\ map output (run_history Sample.g6)
     = ["run2"; "run3"; "run4"; "run5"; "run6"]
  /\ List.length (run_history Sample.g6) = 5.
Proof.
  assert (R : records Sample.picked Sample.six_entries Sample.g6).
  { exact (records_add _ _ _ _ _ _ _
            (records_add _ _ _ _ _ _ _
              (records_add _ _ _ _ _ _ _
                (records_add _ _ _ _ _ _ _
                  (records_add _ _ _ _ _ _ _
                    (records_add _ _ _ _ _ _ _
                      (records_start Sample.picked))))))). }
  assert (L : 5 < List.length Sample.six_entries) by (simpl; lia).
  destruct (history_keeps_last_five _ _ _ R L) as [H1 H2].
  split; [exact L | split; [rewrite H1; reflexivity | exact H2]].
Defined.

(** ** History recall *)

Module SelectFacts.

Lemma py_index_in_range {A : Type} (l : list A) (i : Z) :
  (0 <= i < Z.of_nat (List.length l))%Z ->
  py_index l i = nth_error l (Z.to_nat i).
Proof.
  intros [H0 _]. unfold py_index.
  destruct (Z.leb_spec 0 i); [reflexivity | lia].
Qed.

Lemma select_out_of_range (g : gui) (i : Z) (rest : list Z) :
  (i < 0 \/ Z.of_nat (List.length (run_history g)) <= i)%Z ->
  _on_history_select (i :: rest) g = Some g.
Proof.
  intro H. unfold _on_history_select.
  destruct (run_history g) as [|e0 h] eqn:Hh; [reflexivity|].
  set (len := Z.of_nat (List.length (e0 :: h))) in *.
  destruct H as [H|H].
  - replace (len <=? len - 1 - i)%Z with true
      by (symmetry; apply Z.leb_le; lia).
    now rewrite orb_true_r.
  - replace (len - 1 - i <? 0)%Z with true
      by (symmetry; apply Z.ltb_lt; lia).
    reflexivity.
Qed.

Lemma select_in_range (g : gui) (i : Z) (rest : list Z) :
  (0 <= i < Z.of_nat (List.length (run_history g)))%Z ->
  exists e,
    nth_error (rev (run_history g)) (Z.to_nat i) = Some e
    /\ _on_history_select (i :: rest) g
       = Some (if Str.truthy (output e) then show_entry e g else g).
Proof.
  intro H. unfold _on_history_select.
  destruct (run_history g) as [|e0 h] eqn:Hh; [simpl in H; lia|].
  set (l := e0 :: h) in *.
  set (len := Z.of_nat (List.length l)) in *.
  replace (len - 1 - i <? 0)%Z with false
    by (symmetry; apply Z.ltb_ge; lia).
  replace (len <=? len - 1 - i)%Z with false
    by (symmetry; apply Z.leb_gt; lia).
  simpl orb. cbv iota.
  rewrite py_index_in_range by (fold len; lia).
  rewrite nth_error_rev.
  replace (Z.to_nat i <? List.length l)%nat with true
    by (symmetry; apply Nat.ltb_lt; lia).
  replace (Z.to_nat (len - 1 - i))
    with (List.length l - S (Z.to_nat i))%nat by lia.
  destruct (nth_error l (List.length l - S (Z.to_nat i))) as [e|] eqn:He.
  - exists e. split; [reflexivity|].
    destruct (Str.truthy (output e)); reflexivity.
  - apply nth_error_None in He. lia.
Qed.

End SelectFacts.

(** C7: a list-box index counts from the newest entry; the handler turns
    it into the position in the newest-last [run_history] and takes that
    entry (showing its output); for an index outside the history, and so
    for every index when the history is empty, and for an empty selection,
    it returns with the window unchanged; it never raises.  The list box
    itself shows the history newest first. *)
Theorem history_select_newest_first (g : gui) (i : Z) (rest : list Z) :
  let h := run_history g in
  let len := Z.of_nat (List.length h) in
  (exists g', _on_history_select (i :: rest) g = Some g')
  /\ ((0 <= i < len)%Z ->
      exists e,
        nth_error (rev h) (Z.to_nat i) = Some e
        /\ _on_history_select (i :: rest) g
           = Some (if Str.truthy (output e) then show_entry e g else g))
  /\ ((i < 0 \/ len <= i)%Z -> _on_history_select (i :: rest) g = Some g)
  /\ (h = [] -> _on_history_select (i :: rest) g = Some g)
  /\ _on_history_select [] g = Some g
  /\ (forall ts code flag out,
        history_listbox (_add_run_to_history ts code flag out g)
        = map summary
              (rev (run_history (_add_run_to_history ts code flag out g)))).
Proof.
  intros h len.
  assert (In_range := SelectFacts.select_in_range g i rest).
  assert (Out := SelectFacts.select_out_of_range g i rest).
  fold h in In_range, Out. fold len in In_range, Out.
  split; [|split; [exact In_range | split; [exact Out | split; [|split]]]].
  - destruct (Z_lt_ge_dec i 0) as [Hneg|Hpos].
    + exists g. apply Out. lia.
    + destruct (Z_lt_ge_dec i len) as [Hlt|Hge].
      * destruct In_range as [e [_ He]]; [lia|]. eexists. exact He.
      * exists g. apply Out. lia.
  - intro Hnil. unfold _on_history_select. fold h. now rewrite Hnil.
  - reflexivity.
  - reflexivity.
Qed.

(** The second row of the list box after six runs is run5. *)
Lemma history_select_newest_first_witness :
  (0 <= 1 < Z.of_nat (List.length (run_history Sample.g6)))%Z
  /\ (exists e,
        nth_error (rev (run_history Sample.g6)) 1 = Some e
        /\ output e = "run5"
        /\ _on_history_select [1%Z] Sample.g6 = Some (show_entry e Sample.g6))
  /\ _on_history_select [5%Z] Sample.g6 = Some Sample.g6
  /\ _on_history_select [0%Z] init = Some init.
Proof.
  assert (R : (0 <= 1 < Z.of_nat (List.length (run_history Sample.g6)))%Z)
    by (simpl; lia).
  destruct (history_select_newest_first Sample.g6 1 []) as (_ & Hin & _).
  destruct (history_select_newest_first Sample.g6 5 []) as (_ & _ & Hout & _).
  destruct (history_select_newest_first init 0 []) as (_ & _ & _ & Hnil & _).
  split; [exact R|]. split; [|split].
  - destruct (Hin R) as [e [He Hsel]]. exists e.
    split; [exact He|].
    assert (Hout_e : output e = "run5")
      by (vm_compute in He; injection He as <-; reflexivity).
    split; [exact Hout_e|].
    rewrite Hsel, Hout_e. reflexivity.
  - apply Hout. right. simpl. lia.
  - apply Hnil. reflexivity.
Defined.

(** ** The runner invoker *)

Module InvokerFacts.
Import Str.

Ltac by_cases_on c :=
  destruct c as [[] [] [] [] [] [] [] []]; vm_compute;
  split; intro; solve [reflexivity | discriminate].

Lemma lower_char_either (x c : ascii) :
  In x ["n"; "o"; "r"; "m"; "a"; "l"]%char ->
  lower_char c = x <-> either_case x c = true.
Proof.
  simpl. intros [<-|[<-|[<-|[<-|[<-|[<-|[]]]]]]]; by_cases_on c.
Qed.

(** [flag.lower() == "normal"] holds for the 64 spellings of the word in
    mixed case and for nothing else. *)
Lemma lower_normal_iff (f : string) :
  lower f = "normal" <-> spelt_normal f = true.
Proof.
  destruct f as [|a [|b [|c [|d [|e [|g [|x f]]]]]]]; simpl;
    try (split; intro H; discriminate H).
  rewrite !andb_true_iff.
  rewrite <- (lower_char_either "n" a), <- (lower_char_either "o" b),
    <- (lower_char_either "r" c), <- (lower_char_either "m" d),
    <- (lower_char_either "a" e), <- (lower_char_either "l" g)
    by (simpl; tauto).
  split.
  - intro H. injection H as -> -> -> -> -> ->. tauto.
  - intros [[[[[-> ->] ->] ->] ->] ->]. reflexivity.
Qed.

Lemma build_cmd_flag_args (exe target_path : string) (flag : option string) :
  build_cmd exe target_path flag
  = ([exe; "-m"; "pytest"] ++ flag_args flag ++ [target_path])%list.
Proof.
  unfold build_cmd, flag_args, flag_given.
  destruct flag as [f|]; [|reflexivity].
  destruct (truthy f && negb (String.eqb (lower f) "normal"));
    reflexivity.
Qed.

End InvokerFacts.

(** C5, as the code has it: when starting or running the child process
    raises an exception that is an instance of [Exception], [run_pytest]
    returns (it does not raise) empty stdout, a stderr text that is not
    empty and carries the exception's message, and exit code 1. *)
Theorem run_pytest_exception_result
        (E : env) (target_path : string) (is_directory : bool)
        (flag : option string) (msg : string) :
  subprocess_run E (pytest_call (sys_executable E) target_path flag)
  = Raised (Exc msg) ->
  exists stderr,
    run_pytest E target_path is_directory flag = Some ("", stderr, 1%Z)
    /\ stderr = "Unexpected error running pytest: " ++ msg
    /\ stderr <> ""
    /\ Str.truthy stderr = true.
Proof.
  intro H. unfold run_pytest. rewrite H.
  eexists. repeat split. discriminate.
Qed.

(** On a host without the interpreter the result is the synthetic one. *)
Lemma run_pytest_exception_result_witness :
  run_pytest Sample.env_missing "/tmp/t/test_a.py" false (Some "-q")
  = Some ("",
          "Unexpected error running pytest: [Errno 2] No such file or directory",
          1%Z).
Proof.
  destruct (run_pytest_exception_result
              Sample.env_missing "/tmp/t/test_a.py" false (Some "-q")
              "[Errno 2] No such file or directory" eq_refl)
    as [stderr [Hrun [Hmsg _]]].
  rewrite Hrun, Hmsg. reflexivity.
Defined.

(** C9: the argument vector is the runner invocation
    [sys.executable -m pytest], then the flag when there is one and it is
    not the sentinel, then the target path, in that order; it is handed to
    [subprocess.run] as a list with [shell=False], and the result of
    [run_pytest] is decided by that one call. *)
Theorem run_pytest_command
        (E : env) (target_path : string) (is_directory : bool)
        (flag : option string) :
  let call := pytest_call (sys_executable E) target_path flag in
  args call
  = ([sys_executable E; "-m"; "pytest"] ++ flag_args flag
       ++ [target_path])%list
  /\ firstn 3 (args call) = [sys_executable E; "-m"; "pytest"]
  /\ last (args call) "" = target_path
  /\ shell call = false
  /\ capture_output call = true
  /\ text call = true
  /\ run_pytest E target_path is_directory flag
     = match subprocess_run E call with
       | Completed stdout stderr returncode =>
           Some (stdout, stderr, returncode)
       | Raised (Exc msg) =>
           Some ("", "Unexpected error running pytest: " ++ msg, 1%Z)
       | Raised BaseExc => None
       end.
Proof.
  intro call.
  assert (Hargs : args call
                  = ([sys_executable E; "-m"; "pytest"] ++ flag_args flag
                       ++ [target_path])%list)
    by apply InvokerFacts.build_cmd_flag_args.
  split; [exact Hargs|].
  split; [rewrite Hargs; reflexivity|].
  split.
  { rewrite Hargs.
    change ([sys_executable E; "-m"; "pytest"] ++ flag_args flag
              ++ [target_path])%list
      with (([sys_executable E; "-m"; "pytest"] ++ flag_args flag)
              ++ [target_path])%list.
    apply last_last. }
  repeat split.
Qed.

(** C10: the sentinel test ignores case: a flag whose lower-case form is
    "normal" (such as "Normal" and "NORMAL"), an empty flag and an absent
    flag are all left out of the command; every other flag is passed on
    as it is. *)
Theorem build_cmd_sentinel (exe target_path : string) :
  (forall f, Str.lower f = "normal" ->
             build_cmd exe target_path (Some f)
             = [exe; "-m"; "pytest"; target_path])
  /\ build_cmd exe target_path (Some "Normal")
     = [exe; "-m"; "pytest"; target_path]
  /\ build_cmd exe target_path (Some "NORMAL")
     = [exe; "-m"; "pytest"; target_path]
  /\ build_cmd exe target_path (Some "")
     = [exe; "-m"; "pytest"; target_path]
  /\ build_cmd exe target_path None = [exe; "-m"; "pytest"; target_path]
  /\ (forall f, f <> "" -> Str.lower f <> "normal" ->
                build_cmd exe target_path (Some f)
                = [exe; "-m"; "pytest"; f; target_path]).
Proof.
  assert (Hnormal : forall f, Str.lower f = "normal" ->
                      build_cmd exe target_path (Some f)
                      = [exe; "-m"; "pytest"; target_path]).
  { intros f Hf. unfold build_cmd, flag_given. rewrite Hf. simpl.
    now rewrite andb_false_r. }
  split; [exact Hnormal|].
  split; [apply Hnormal; reflexivity|].
  split; [apply Hnormal; reflexivity|].
  split; [reflexivity|].
  split; [reflexivity|].
  intros f Hne Hlow. unfold build_cmd, flag_given.
  apply StrFacts.truthy_neq in Hne. rewrite Hne.
  apply String.eqb_neq in Hlow. rewrite Hlow. reflexivity.
Qed.

(** "nOrMaL" is left out, "-q" and "normal " are passed on. *)
Lemma build_cmd_sentinel_witness :
  build_cmd "python" "tests" (Some "nOrMaL") = ["python"; "-m"; "pytest"; "tests"]
  /\ build_cmd "python" "tests" (Some "-q")
     = ["python"; "-m"; "pytest"; "-q"; "tests"]
  /\ build_cmd "python" "tests" (Some "normal ")
     = ["python"; "-m"; "pytest"; "normal "; "tests"].
Proof.
  destruct (build_cmd_sentinel "python" "tests") as (Hn & _ & _ & _ & _ & Ho).
  split; [apply Hn; reflexivity|].
  split; apply Ho; discriminate.
Defined.

(** ** A whole run *)

Module RunFacts.

(** What a completed run stores as its newest history entry. *)
Lemma run_tests_entry
      (E : env) (g : gui) (path stdout stderr : string) (rc : Z) :
  selected_path g = Some path ->
  path <> "" ->
  run_pytest E path (is_directory g) (Some (flag_var g))
  = Some (stdout, stderr, rc) ->
  exists g' e,
    run_tests E g = Finished g'
    /\ newest (run_history g') = Some e
    /\ output e = full_output_of g path (flag_var g) stdout stderr rc
    /\ exit_code e = rc
    /\ counts e = parse_counts (stdout ++ Str.nl ++ stderr).
Proof.
  intros Hsel Hpath Hrun. unfold run_tests. rewrite Hsel.
  apply StrFacts.truthy_neq in Hpath. rewrite Hpath. cbv beta iota zeta.
  cbn [negb].
  unfold full_output_of, boot_banner, output_block, errors_block,
    exit_code_line.
  destruct (flag_given (Some (flag_var g))) eqn:Hflag;
    cbn [is_directory insert_end set_output_text flag_var];
    rewrite Hrun;
    destruct (Str.truthy stdout) eqn:Hout;
    destruct (Str.truthy stderr) eqn:Herr;
    (eexists; eexists; split; [reflexivity|]);
    match goal with
    | |- context [if ?c then _ else _] => destruct c
    end;
    cbn [run_history set_cursor_label _add_run_to_history set_history];
    rewrite HistoryFacts.newest_record;
    (split; [reflexivity|]).
  all: lazy beta iota zeta delta
         [output exit_code counts make_entry get_all insert_end output_text
          _parse_test_summary set_last set_output_text tests_total
          tests_passed tests_failed tests_errors tests_skipped].
  all: rewrite ?StrFacts.app_assoc.
  all: split; [reflexivity | split; [reflexivity|]].
  all: unfold parse_counts; reflexivity.
Qed.

(** A stored snapshot is never empty, so the recall handler never skips
    an entry that a run stored. *)
Lemma full_output_truthy (g : gui) (path flag stdout stderr : string)
      (rc : Z) :
  Str.truthy (full_output_of g path flag stdout stderr rc) = true.
Proof. reflexivity. Qed.

(** Without a target nothing runs and nothing is recorded. *)
Lemma run_tests_no_target (E : env) (g : gui) :
  selected_path g = None \/ selected_path g = Some "" ->
  run_tests E g = Finished g.
Proof. intros [H|H]; unfold run_tests; rewrite H; reflexivity. Qed.

End RunFacts.

(** C2, as the code has it: for a completed run the snapshot stored in the
    newest history entry is, in this order, the boot/flag banner, then the
    header [=== PYTEST OUTPUT ===] and stdout (each followed by a newline)
    when stdout is not empty, then the header [=== PYTEST ERRORS ===] and
    stderr (each followed by a newline) when stderr is not empty, then the
    exit-code line, and last the newline that closes the text widget. *)
Theorem run_tests_full_output
        (E : env) (g : gui) (path stdout stderr : string) (rc : Z) :
  selected_path g = Some path ->
  path <> "" ->
  run_pytest E path (is_directory g) (Some (flag_var g))
  = Some (stdout, stderr, rc) ->
  exists g' e,
    run_tests E g = Finished g'
    /\ newest (run_history g') = Some e
    /\ output e
       = boot_banner g path (flag_var g)
           ++ (if Str.truthy stdout
               then "=== PYTEST OUTPUT ===" ++ Str.nl ++ stdout ++ Str.nl
               else "")
           ++ (if Str.truthy stderr
               then "=== PYTEST ERRORS ===" ++ Str.nl ++ stderr ++ Str.nl
               else "")
           ++ exit_code_line rc ++ Str.nl.
Proof.
  intros Hsel Hpath Hrun.
  destruct (RunFacts.run_tests_entry E g path stdout stderr rc Hsel Hpath Hrun)
    as (g' & e & Hfin & Hnew & Hout & _).
  exists g', e. repeat split; assumption.
Qed.

(** A run whose child process prints to both streams and exits with 2. *)
Lemma run_tests_full_output_witness :
  exists g' e,
    run_tests Sample.env_errors Sample.picked = Finished g'
    /\ newest (run_history g') = Some e
    /\ output e
       = "[BOOT] pytest engaged on FILE:" ++ Str.nl
           ++ "/tmp/t/test_a.py" ++ Str.nl ++ Str.nl
           ++ "=== PYTEST OUTPUT ===" ++ Str.nl
           ++ "2 errors in 0.5s" ++ Str.nl
           ++ "=== PYTEST ERRORS ===" ++ Str.nl
           ++ "ImportError: no module" ++ Str.nl
           ++ Str.nl ++ "[EXIT CODE] 2" ++ Str.nl ++ Str.nl.
Proof.
  destruct (run_tests_full_output
              Sample.env_errors Sample.picked "/tmp/t/test_a.py"
              "2 errors in 0.5s" "ImportError: no module" 2%Z
              eq_refl ltac:(discriminate) eq_refl)
    as (g' & e & Hfin & Hnew & Hout).
  exists g', e. split; [exact Hfin|]. split; [exact Hnew|].
  rewrite Hout. reflexivity.
Defined.

(** C2, as the specification words it, fails: in the snapshot of a run with
    output on both streams the headers [=== OUTPUT ===] and
    [=== ERRORS ===] occur nowhere, so the snapshot has the specified
    layout for no banner and no exit-code line. *)
Lemma full_output_not_spec_layout :
  exists g' e,
    run_tests Sample.env_errors Sample.picked = Finished g'
    /\ newest (run_history g') = Some e
    /\ Str.contains "=== OUTPUT ===" (output e) = false
    /\ Str.contains "=== ERRORS ===" (output e) = false
    /\ forall banner exit_line,
         output e
         <> spec_full_output banner "2 errors in 0.5s"
                             "ImportError: no module" exit_line.
Proof.
  eexists. eexists.
  split; [vm_compute; reflexivity|].
  split; [reflexivity|].
  split; [vm_compute; reflexivity|].
  split; [vm_compute; reflexivity|].
  intros banner exit_line Heq.
  assert (Hin : Str.contains "=== OUTPUT ===" 
                  (spec_full_output banner "2 errors in 0.5s"
                                    "ImportError: no module" exit_line)
                = true).
  { unfold spec_full_output. cbn [Str.truthy].
    rewrite StrFacts.app_assoc. apply StrFacts.contains_app. }
  rewrite <- Heq in Hin. vm_compute in Hin. discriminate Hin.
Qed.

(** * Further properties *)

(** ** Lines and substrings *)

Module LineFacts.
Import Str StrFacts.

Lemma rev_append_cat (cur s : string) :
  rev_append cur s = rev_append cur "" ++ s.
Proof.
  revert s; induction cur as [|c cur IH]; intro s; simpl; [reflexivity|].
  rewrite IH, (IH (String c "")), app_assoc. reflexivity.
Qed.

Lemma startswith_split (p s : string) :
  startswith p s = true -> exists b, s = p ++ b.
Proof.
  revert s; induction p as [|x p IH]; intros s H; simpl in *.
  - exists s. reflexivity.
  - destruct s as [|y s]; [discriminate|].
    apply andb_true_iff in H as [Hxy Hp].
    apply Ascii.eqb_eq in Hxy as ->.
    destruct (IH s Hp) as [b ->]. exists b. reflexivity.
Qed.

(** [p in s] holds exactly when [s] can be cut around a copy of [p]. *)
Lemma contains_iff (p s : string) :
  contains p s = true <-> exists a b, s = a ++ p ++ b.
Proof.
  split.
  - induction s as [|y s IH]; simpl; intro H.
    + rewrite orb_false_r in H. destruct (startswith_split _ _ H) as [b Hb].
      exists "", b. exact Hb.
    + apply orb_true_iff in H as [H|H].
      * destruct (startswith_split _ _ H) as [b Hb]. exists "", b. exact Hb.
      * destruct (IH H) as (a & b & ->). exists (String y a), b. reflexivity.
  - intros (a & b & ->). apply contains_app.
Qed.

Lemma contains_inside (p a l b : string) :
  contains p l = true -> contains p (a ++ l ++ b) = true.
Proof.
  intro H. apply contains_iff in H as (a' & b' & ->).
  apply contains_iff. exists (a ++ a'), (b' ++ b).
  now rewrite !app_assoc.
Qed.

(** Every line that [splitlines] yields is a piece of the text. *)
Lemma splitlines_from_piece (n : nat) :
  forall s cur line,
    length s <= n ->
    In line (splitlines_from cur s) ->
    exists a b, rev_append cur s = a ++ line ++ b.
Proof.
  induction n as [|n IH]; intros s cur line Hlen Hin.
  - destruct s; [|simpl in Hlen; lia]. simpl in Hin.
    destruct (truthy cur); [|contradiction].
    destruct Hin as [<-|[]]. exists "", "". simpl.
    apply (rev_append_cat cur "").
  - destruct s as [|c s]; simpl in Hin.
    { destruct (truthy cur); [|contradiction].
      destruct Hin as [<-|[]]. exists "", "". simpl.
      apply (rev_append_cat cur ""). }
    simpl in Hlen.
    assert (Hhead : forall rest,
               exists a b, rev_append cur (String c rest)
                           = a ++ rev_append cur "" ++ b).
    { intro rest. exists "", (String c rest). simpl.
      apply (rev_append_cat cur (String c rest)). }
    assert (Htail : forall rest,
               length rest <= n ->
               In line (splitlines_from "" rest) ->
               forall mid, exists a b,
                 rev_append cur (mid ++ rest) = a ++ line ++ b).
    { intros rest Hr Hl mid.
      destruct (IH rest "" line Hr Hl) as (a & b & Hab). simpl in Hab.
      exists (rev_append cur "" ++ mid ++ a), b.
      rewrite rev_append_cat, Hab, !app_assoc. reflexivity. }
    destruct (Ascii.eqb c CR).
    + destruct s as [|d s'].
      * destruct Hin as [<-|Hin]; [apply Hhead | contradiction].
      * destruct (Ascii.eqb d LF).
        -- destruct Hin as [<-|Hin]; [apply Hhead|].
           apply (Htail s' ltac:(simpl in Hlen; lia) Hin
                        (String c (String d ""))).
        -- destruct Hin as [<-|Hin]; [apply Hhead|].
           apply (Htail (String d s') ltac:(lia) Hin (String c "")).
    + destruct (is_linebreak c).
      * destruct Hin as [<-|Hin]; [apply Hhead|].
        apply (Htail s ltac:(lia) Hin (String c "")).
      * apply (IH s (String c cur) line ltac:(lia) Hin).
Qed.

Lemma splitlines_piece (text line : string) :
  In line (splitlines text) -> exists a b, text = a ++ line ++ b.
Proof.
  intro H.
  apply (splitlines_from_piece (length text) text "" line (le_n _) H).
Qed.

(** Joining two texts with a newline joins their lines; an empty line
    appears between them when the first text is empty or already ends its
    last line. *)
Lemma splitlines_from_join (n : nat) (b : string) :
  forall a cur,
    length a <= n ->
    exists pad,
      (pad = [] \/ pad = [""])
      /\ splitlines_from cur (a ++ nl ++ b)
         = (splitlines_from cur a ++ pad ++ splitlines b)%list.
Proof.
  induction n as [|n IH]; intros a cur Hlen.
  - destruct a; [|simpl in Hlen; lia]. simpl.
    destruct cur as [|x cur]; simpl.
    + exists [""]. split; [now right | reflexivity].
    + exists []. split; [now left | reflexivity].
  - destruct a as [|c a].
    { simpl. destruct cur as [|x cur]; simpl.
      + exists [""]. split; [now right | reflexivity].
      + exists []. split; [now left | reflexivity]. }
    simpl in Hlen. cbn [append splitlines_from].
    destruct (Ascii.eqb c CR).
    + destruct a as [|d a'].
      * exists []. split; [now left | reflexivity].
      * cbn [append]. destruct (Ascii.eqb d LF).
        -- destruct (IH a' "" ltac:(simpl in Hlen; lia)) as (pad & Hp & ->).
           exists pad. split; [exact Hp | reflexivity].
        -- destruct (IH (String d a') "" ltac:(lia)) as (pad & Hp & Heq).
           cbn [append] in Heq. rewrite Heq.
           exists pad. split; [exact Hp | reflexivity].
    + destruct (is_linebreak c).
      * destruct (IH a "" ltac:(lia)) as (pad & Hp & ->).
        exists pad. split; [exact Hp | reflexivity].
      * apply (IH a (String c cur) ltac:(lia)).
Qed.

Lemma splitlines_join (a b : string) :
  exists pad,
    (pad = [] \/ pad = [""])
    /\ splitlines (a ++ nl ++ b)
       = (splitlines a ++ pad ++ splitlines b)%list.
Proof. apply (splitlines_from_join (length a) b a "" (le_n _)). Qed.

End LineFacts.

(** ** The parser on whole texts *)

Module TextFacts.
Import ParserFacts.

Lemma sum_N_app (l1 l2 : list N) : sum_N (l1 ++ l2) = (sum_N l1 + sum_N l2)%N.
Proof.
  induction l1 as [|x l1 IH]; simpl; [reflexivity|].
  unfold sum_N in *. simpl. rewrite IH. lia.
Qed.

Lemma tally_add_zero_r (t : Tally.t) : tally_add t Tally.zero = t.
Proof. destruct t; unfold tally_add; simpl. now rewrite !N.add_0_r. Qed.

Lemma tally_add_assoc (a b c : Tally.t) :
  tally_add (tally_add a b) c = tally_add a (tally_add b c).
Proof. unfold tally_add; simpl. f_equal; lia. Qed.

(** What a line adds does not depend on what was counted before it. *)
Lemma scan_line_add (t : Tally.t) (line : string) :
  scan_line t line = tally_add t (scan_line Tally.zero line).
Proof.
  destruct (is_candidate line) eqn:Hc.
  - rewrite !scan_line_sums by exact Hc.
    unfold line_sums, tally_add; simpl. f_equal; lia.
  - rewrite !scan_line_skip by exact Hc.
    symmetry. apply tally_add_zero_r.
Qed.

Lemma fold_scan_add (lines : list string) (t : Tally.t) :
  fold_left scan_line lines t
  = tally_add t (fold_left scan_line lines Tally.zero).
Proof.
  revert t; induction lines as [|l lines IH]; intro t; simpl.
  - symmetry. apply tally_add_zero_r.
  - rewrite IH, (IH (scan_line Tally.zero l)), (scan_line_add t l).
    apply tally_add_assoc.
Qed.

Lemma fold_scan_app (l1 l2 : list string) :
  fold_left scan_line (l1 ++ l2) Tally.zero
  = tally_add (fold_left scan_line l1 Tally.zero)
              (fold_left scan_line l2 Tally.zero).
Proof. rewrite fold_left_app. apply fold_scan_add. Qed.

Lemma fold_scan_sums (lines : list string) :
  let ks key :=
    sum_N (flat_map (fun line =>
                       if is_candidate line then Re.finditer key line else [])
                    lines) in
  fold_left scan_line lines Tally.zero
  = Tally.mk (ks "passed") (ks "failed") (ks "error" + ks "errors")
             (ks "skipped").
Proof.
  induction lines as [|l lines IH]; [reflexivity|].
  cbn zeta in *. cbn [fold_left flat_map].
  rewrite fold_scan_add, IH. rewrite !sum_N_app.
  destruct (is_candidate l) eqn:Hc.
  - rewrite scan_line_sums by exact Hc.
    unfold line_sums, tally_add; simpl. f_equal; lia.
  - rewrite scan_line_skip by exact Hc.
    unfold tally_add; simpl. reflexivity.
Qed.

Lemma no_keyword_split (text : string) :
  no_keyword text = true ->
  forall line, In line (Str.splitlines text) -> is_candidate line = false.
Proof.
  unfold no_keyword. rewrite !andb_true_iff, !negb_true_iff.
  intros [[[Hp Hf] Hs] He] line Hin.
  destruct (LineFacts.splitlines_piece _ _ Hin) as (a & b & ->).
  unfold is_candidate.
  destruct (Str.contains " passed" line) eqn:H1;
    [rewrite (LineFacts.contains_inside _ a line b H1) in Hp; discriminate|].
  destruct (Str.contains " failed" line) eqn:H2;
    [rewrite (LineFacts.contains_inside _ a line b H2) in Hf; discriminate|].
  destruct (Str.contains " skipped" line) eqn:H3;
    [rewrite (LineFacts.contains_inside _ a line b H3) in Hs; discriminate|].
  destruct (Str.contains " error" line) eqn:H4;
    [rewrite (LineFacts.contains_inside _ a line b H4) in He; discriminate|].
  reflexivity.
Qed.

Lemma fold_scan_none (lines : list string) (t : Tally.t) :
  (forall line, In line lines -> is_candidate line = false) ->
  fold_left scan_line lines t = t.
Proof.
  revert t; induction lines as [|l lines IH]; intros t H; simpl.
  - reflexivity.
  - rewrite scan_line_skip by (apply H; now left).
    apply IH. intros line Hin. apply H. now right.
Qed.

Lemma counts_join (a b : string) :
  parse_counts (a ++ Str.nl ++ b)
  = counts_add (parse_counts a) (parse_counts b).
Proof.
  unfold parse_counts, tally_of.
  destruct (LineFacts.splitlines_join a b) as (pad & Hpad & ->).
  rewrite !fold_scan_app.
  assert (Hz : fold_left scan_line pad Tally.zero = Tally.zero)
    by (destruct Hpad as [-> | ->]; reflexivity).
  rewrite Hz.
  destruct (fold_left scan_line (Str.splitlines a) Tally.zero) as [p f e s].
  destruct (fold_left scan_line (Str.splitlines b) Tally.zero)
    as [p' f' e' s'].
  unfold counts_add, tally_add; simpl. f_equal; lia.
Qed.

End TextFacts.

(** X1: The counts of a text are, key by key, the numbers found on its
    candidate lines added up; the errors count adds what the pattern of
    [error] finds and what the pattern of [errors] finds. *)
Theorem parse_counts_by_key (text : string) :
  parse_counts text
  = mkCounts (key_sum "passed" text + key_sum "failed" text
              + (key_sum "error" text + key_sum "errors" text)
              + key_sum "skipped" text)
             (key_sum "passed" text)
             (key_sum "failed" text)
             (key_sum "error" text + key_sum "errors" text)
             (key_sum "skipped" text).
Proof.
  unfold parse_counts, tally_of, key_sum.
  rewrite (TextFacts.fold_scan_sums (Str.splitlines text)). reflexivity.
Qed.

(** X2: At any place of a line, and for each of the five keys, the pattern
    matches exactly when a whole run of digits, a whole run of white space
    and the key stand there; group 1 is the whole run of digits. *)
Theorem pattern_matches_whole_runs (key s : string) :
  In key (map fst pattern_map) ->
  Re.match_here key s = match_longest key s.
Proof.
  intro Hin. apply in_map_iff in Hin as (kl & <- & Hkl).
  pose proof (ReFacts.pattern_keys_longest s) as HF.
  rewrite Forall_forall in HF. apply (HF kl Hkl).
Qed.

(** In ["120   failed,"] the number is 120 and the text left is the comma;
    a number that touches the key does not match. *)
Lemma pattern_matches_whole_runs_witness :
  Re.match_here "failed" "120   failed," = Some ("120", 1)
  /\ Re.match_here "failed" "120failed" = None.
Proof.
  rewrite !(pattern_matches_whole_runs "failed")
    by (simpl; tauto).
  split; reflexivity.
Defined.

(** X3: A text in which none of [" passed"], [" failed"], [" skipped"],
    [" error"] occurs gives all-zero counts, whatever else it holds. *)
Theorem parse_no_keyword_zero (text : string) :
  no_keyword text = true -> parse_counts text = counts_zero.
Proof.
  intro H. unfold parse_counts, tally_of.
  rewrite TextFacts.fold_scan_none by (apply TextFacts.no_keyword_split, H).
  reflexivity.
Qed.

(** A count separated from its word by a tab is on no candidate line. *)
Lemma parse_no_keyword_zero_witness :
  Re.finditer "passed" ("3" ++ String (ascii_of_nat 9) "passed") = [3%N]
  /\ parse_counts ("3" ++ String (ascii_of_nat 9) "passed") = counts_zero.
Proof.
  split; [reflexivity|].
  apply parse_no_keyword_zero. reflexivity.
Defined.

(** X4: The counts of two texts joined by a newline, as [run_tests] joins
    stdout and stderr, are the sums of their counts: a summary that
    appears in both is counted twice. *)
Theorem parse_counts_join (a b : string) :
  parse_counts (a ++ Str.nl ++ b)
  = counts_add (parse_counts a) (parse_counts b).
Proof. apply TextFacts.counts_join. Qed.

(** ** The history between runs *)

(** X5: Starting from an empty history, the history is always the last five
    of the entries recorded, in the order recorded; up to five records
    nothing is lost. *)
Theorem history_from_empty (g g' : gui) (es : list entry) :
  records g es g' ->
  run_history g = [] ->
  run_history g' = last5 es
  /\ List.length (run_history g') = Nat.min 5 (List.length es)
  /\ (List.length es <= 5 -> run_history g' = es).
Proof.
  intros R Hempty.
  assert (H : run_history g' = last5 es).
  { destruct (HistoryFacts.records_history g g' es R) as [[-> ->] | ->].
    - rewrite Hempty. reflexivity.
    - rewrite Hempty. reflexivity. }
  rewrite H. split; [reflexivity|]. split.
  - apply HistoryFacts.last5_length.
  - apply HistoryFacts.last5_short.
Qed.

(** After three records the three entries are all there. *)
Lemma history_from_empty_witness :
  map output (run_history Sample.g3) = ["run1"; "run2"; "run3"].
Proof.
  assert (R : records Sample.picked (firstn 3 Sample.six_entries) Sample.g3).
  { exact (records_add _ _ _ _ _ _ _
            (records_add _ _ _ _ _ _ _
              (records_add _ _ _ _ _ _ _
                (records_start Sample.picked)))). }
  destruct (history_from_empty _ _ _ R eq_refl) as (_ & _ & H).
  rewrite H by (simpl; lia). reflexivity.
Defined.

(** X6: When the list box shows the history, selecting the row [i] shows the
    snapshot of the run whose summary is written on that row. *)
Theorem history_select_shows_row
        (g : gui) (i : Z) (rest : list Z) (row : string) :
  listbox_in_step g ->
  (0 <= i)%Z ->
  nth_error (history_listbox g) (Z.to_nat i) = Some row ->
  exists e,
    In e (run_history g)
    /\ summary e = row
    /\ _on_history_select (i :: rest) g
       = Some (if Str.truthy (output e) then show_entry e g else g)
    /\ output_text (show_entry e g) = output e.
Proof.
  intros Hstep Hi Hrow. rewrite Hstep in Hrow.
  assert (Hlt : Z.to_nat i < List.length (run_history g)).
  { rewrite <- length_rev, <- (length_map summary).
    apply nth_error_Some. congruence. }
  destruct (SelectFacts.select_in_range g i rest ltac:(lia))
    as (e & He & Hsel).
  exists e. split; [|split; [|split]].
  - apply in_rev. apply (nth_error_In _ _ He).
  - rewrite (map_nth_error summary _ _ He) in Hrow. congruence.
  - exact Hsel.
  - reflexivity.
Qed.

(** After six runs the first row is the newest run, run6. *)
Lemma history_select_shows_row_witness :
  exists e,
    In e (run_history Sample.g6)
    /\ summary e
       = "12:00:06 | OK | code=0 | T:0 P:0 F:0 E:0 S:0 | FILE:test_a.py"
    /\ _on_history_select [0%Z] Sample.g6 = Some (show_entry e Sample.g6)
    /\ output e = "run6".
Proof.
  destruct (history_select_shows_row
              Sample.g6 0 []
              "12:00:06 | OK | code=0 | T:0 P:0 F:0 E:0 S:0 | FILE:test_a.py"
              eq_refl ltac:(lia) eq_refl)
    as (e & Hin & Hsum & Hsel & _).
  exists e.
  assert (He : output e = "run6").
  { simpl in Hin.
    destruct Hin as [<-|[<-|[<-|[<-|[<-|[]]]]]];
      solve [reflexivity | vm_compute in Hsum; discriminate Hsum]. }
  split; [exact Hin|]. split; [exact Hsum|]. split; [|exact He].
  rewrite Hsel, He. reflexivity.
Defined.

(** ** A run, end to end *)

Module RunCases.

Ltac project :=
  lazy beta iota zeta delta
    [after_run after_escape shown_after_run run_label
     _add_run_to_history _parse_test_summary make_entry get_all insert_end
     set_output_text set_cursor_label set_last set_history
     selected_path is_directory last_stdout last_stderr tests_passed
     tests_failed tests_errors tests_skipped tests_total run_history
     flag_var output_text history_listbox cursor_label summary_total
     summary_passed summary_failed summary_errors summary_skipped].

(** A run whose child process returns leaves the window [after_run]. *)
Lemma run_tests_finished
      (E : env) (g : gui) (path stdout stderr : string) (rc : Z) :
  selected_path g = Some path ->
  path <> "" ->
  run_pytest E path (is_directory g) (Some (flag_var g))
  = Some (stdout, stderr, rc) ->
  run_tests E g = Finished (after_run E g path stdout stderr rc).
Proof.
  intros Hsel Hpath Hrun. unfold run_tests. rewrite Hsel.
  apply StrFacts.truthy_neq in Hpath. rewrite Hpath. cbv beta iota zeta.
  cbn [negb].
  unfold after_run, shown_after_run, boot_banner, output_block, errors_block,
    exit_code_line.
  destruct (flag_given (Some (flag_var g))) eqn:Hflag;
    cbn [is_directory insert_end set_output_text flag_var];
    rewrite Hrun;
    destruct (Str.truthy stdout) eqn:Hout;
    destruct (Str.truthy stderr) eqn:Herr.
  all: project.
  all: rewrite ?StrFacts.app_assoc.
  all: match goal with
       | |- context [if ?c then _ else _] => destruct c
       end; reflexivity.
Qed.

(** A run that is interrupted leaves only the banner. *)
Lemma run_tests_escaped (E : env) (g : gui) (path : string) :
  selected_path g = Some path ->
  path <> "" ->
  run_pytest E path (is_directory g) (Some (flag_var g)) = None ->
  run_tests E g = Escaped (after_escape g path).
Proof.
  intros Hsel Hpath Hrun. unfold run_tests. rewrite Hsel.
  apply StrFacts.truthy_neq in Hpath. rewrite Hpath. cbv beta iota zeta.
  cbn [negb]. unfold after_escape, boot_banner.
  destruct (flag_given (Some (flag_var g))) eqn:Hflag;
    cbn [is_directory insert_end set_output_text flag_var];
    rewrite Hrun; project; rewrite ?StrFacts.app_assoc; reflexivity.
Qed.

(** The three ways a call of [run_tests] can go. *)
Lemma run_tests_cases (E : env) (g : gui) :
  ((selected_path g = None \/ selected_path g = Some "")
   /\ run_tests E g = Finished g)
  \/ exists path,
       selected_path g = Some path /\ path <> ""
       /\ ((run_pytest E path (is_directory g) (Some (flag_var g)) = None
            /\ run_tests E g = Escaped (after_escape g path))
           \/ exists stdout stderr rc,
                run_pytest E path (is_directory g) (Some (flag_var g))
                = Some (stdout, stderr, rc)
                /\ run_tests E g
                   = Finished (after_run E g path stdout stderr rc)).
Proof.
  destruct (selected_path g) as [path|] eqn:Hsel.
  - destruct (string_dec path "") as [->|Hne].
    + left. split; [now right|]. apply RunFacts.run_tests_no_target.
      now right.
    + right. exists path. split; [reflexivity|]. split; [exact Hne|].
      destruct (run_pytest E path (is_directory g) (Some (flag_var g)))
        as [[[stdout stderr] rc]|] eqn:Hrun.
      * right. exists stdout, stderr, rc. split; [reflexivity|].
        now apply run_tests_finished.
      * left. split; [reflexivity|]. now apply run_tests_escaped.
  - left. split; [now left|]. apply RunFacts.run_tests_no_target. now left.
Qed.

Lemma after_run_history
      (E : env) (g : gui) (path stdout stderr : string) (rc : Z) :
  run_history (after_run E g path stdout stderr rc)
  = record (new_entry E g path stdout stderr rc) (run_history g).
Proof. reflexivity. Qed.

Lemma or_else_truthy (a b : string) :
  Str.truthy b = true -> Str.truthy (Str.or_else a b) = true.
Proof. unfold Str.or_else. destruct (Str.truthy a) eqn:Ha; auto. Qed.

(** The name written on a history row is never empty. *)
Lemma make_entry_name (ts : string) (code : Z) (flag out : string) (g : gui) :
  target_name (make_entry ts code flag out g) <> "".
Proof.
  apply StrFacts.truthy_neq. cbn [target_name make_entry].
  apply or_else_truthy.
  destruct (selected_path g) as [p|]; [|reflexivity].
  apply or_else_truthy. reflexivity.
Qed.

Lemma new_entry_ok
      (E : env) (g : gui) (path stdout stderr : string) (rc : Z) :
  entry_ok (new_entry E g path stdout stderr rc).
Proof.
  split; [reflexivity|]. split; [reflexivity|]. split.
  - unfold new_entry. project. cbn [counts total passed failed errors skipped].
    unfold parse_counts. reflexivity.
  - apply make_entry_name.
Qed.

End RunCases.

(** X7: The status label after a completed run says OK exactly when the row
    stored in the history says OK, although the two are computed
    separately. *)
Theorem run_label_matches_row
        (E : env) (g : gui) (path stdout stderr : string) (rc : Z) :
  selected_path g = Some path ->
  path <> "" ->
  run_pytest E path (is_directory g) (Some (flag_var g))
  = Some (stdout, stderr, rc) ->
  exists g' e,
    run_tests E g = Finished g'
    /\ newest (run_history g') = Some e
    /\ (classification e = "OK" \/ classification e = "ISSUE")
    /\ (cursor_label g' = "> RUN COMPLETE (OK) _"
        <-> classification e = "OK")
    /\ (cursor_label g' = "> RUN COMPLETE (ISSUES) _"
        <-> classification e = "ISSUE").
Proof.
  intros Hsel Hpath Hrun.
  exists (after_run E g path stdout stderr rc),
         (new_entry E g path stdout stderr rc).
  split; [now apply RunCases.run_tests_finished|].
  split; [rewrite RunCases.after_run_history;
          apply HistoryFacts.newest_record|].
  unfold classification, status_of, new_entry, after_run, run_label.
  RunCases.project.
  cbn [exit_code counts failed errors].
  set (c := parse_counts (stdout ++ Str.nl ++ stderr)).
  destruct (rc =? 0)%Z, (0 <? failed c)%N, (0 <? errors c)%N; simpl;
    (split; [auto|]); split; split; intro H;
    solve [reflexivity | discriminate H].
Qed.

(** Exit code 0 with one failed test: both say ISSUE(S). *)
Lemma run_label_matches_row_witness :
  exists g' e,
    run_tests
      (mkEnv "python" (fun _ => Completed "4 passed, 1 failed in 0.3s" "" 0)
             "12:00:00")
      Sample.picked = Finished g'
    /\ newest (run_history g') = Some e
    /\ classification e = "ISSUE"
    /\ cursor_label g' = "> RUN COMPLETE (ISSUES) _".
Proof.
  destruct (run_label_matches_row
              (mkEnv "python"
                     (fun _ => Completed "4 passed, 1 failed in 0.3s" "" 0)
                     "12:00:00")
              Sample.picked "/tmp/t/test_a.py"
              "4 passed, 1 failed in 0.3s" "" 0%Z
              eq_refl ltac:(discriminate) eq_refl)
    as (g' & e & Hfin & Hnew & Hcl & _ & Hiss).
  exists g', e. split; [exact Hfin|]. split; [exact Hnew|].
  assert (He : classification e = "ISSUE").
  { vm_compute in Hfin. injection Hfin as <-.
    vm_compute in Hnew. injection Hnew as <-. reflexivity. }
  split; [exact He | apply Hiss, He].
Defined.

(** X8: A completed run stores and shows what the process returned: the exit
    code, the flag chosen, the two streams, and as counts the sum of the
    counts found in stdout and of those found in stderr. *)
Theorem run_stores_process_result
        (E : env) (g : gui) (path stdout stderr : string) (rc : Z) :
  selected_path g = Some path ->
  path <> "" ->
  run_pytest E path (is_directory g) (Some (flag_var g))
  = Some (stdout, stderr, rc) ->
  exists g' e,
    run_tests E g = Finished g'
    /\ newest (run_history g') = Some e
    /\ exit_code e = rc
    /\ flag e = flag_var g
    /\ timestamp e = now E
    /\ counts e = counts_add (parse_counts stdout) (parse_counts stderr)
    /\ mkCounts (tests_total g') (tests_passed g') (tests_failed g')
                (tests_errors g') (tests_skipped g')
       = counts e
    /\ last_stdout g' = stdout
    /\ last_stderr g' = stderr
    /\ labels_in_step g'.
Proof.
  intros Hsel Hpath Hrun.
  exists (after_run E g path stdout stderr rc),
         (new_entry E g path stdout stderr rc).
  split; [now apply RunCases.run_tests_finished|].
  split; [rewrite RunCases.after_run_history;
          apply HistoryFacts.newest_record|].
  split; [reflexivity|]. split; [reflexivity|]. split; [reflexivity|].
  rewrite <- TextFacts.counts_join.
  unfold new_entry, after_run, labels_in_step. RunCases.project.
  cbn [counts].
  repeat split; unfold parse_counts; reflexivity.
Qed.

(** A summary printed on both streams is counted twice. *)
Lemma run_stores_process_result_witness :
  exists g' e,
    run_tests
      (mkEnv "python"
             (fun _ => Completed "2 passed in 0.1s" "2 passed in 0.1s" 0)
             "12:00:00")
      Sample.picked = Finished g'
    /\ newest (run_history g') = Some e
    /\ counts e = mkCounts 4 4 0 0 0
    /\ summary_passed g' = "Passed: 4".
Proof.
  destruct (run_stores_process_result
              (mkEnv "python"
                     (fun _ => Completed "2 passed in 0.1s"
                                         "2 passed in 0.1s" 0)
                     "12:00:00")
              Sample.picked "/tmp/t/test_a.py"
              "2 passed in 0.1s" "2 passed in 0.1s" 0%Z
              eq_refl ltac:(discriminate) eq_refl)
    as (g' & e & Hfin & Hnew & _ & _ & _ & Hc & Hg & _ & _ & Hlab).
  exists g', e. split; [exact Hfin|]. split; [exact Hnew|].
  split; [rewrite Hc; reflexivity|].
  destruct Hlab as (_ & Hp & _). rewrite Hp.
  assert (Ht : tests_passed g' = 4%N).
  { rewrite Hc in Hg. vm_compute in Hg. now injection Hg. }
  rewrite Ht. reflexivity.
Defined.

(** X9: A call of [run_tests] never touches the target or the flag, and adds
    at most one entry to the history: none when no target is selected or
    when the run is interrupted, in which case the counters stay as they
    were too. *)
Theorem run_tests_changes (E : env) (g : gui) :
  let r := run_tests E g in
  selected_path (left_by r) = selected_path g
  /\ is_directory (left_by r) = is_directory g
  /\ flag_var (left_by r) = flag_var g
  /\ (run_history (left_by r) = run_history g
      \/ exists e, r = Finished (left_by r)
                   /\ run_history (left_by r) = record e (run_history g)
                   /\ newest (run_history (left_by r)) = Some e)
  /\ (forall g', r = Escaped g' ->
        run_history g' = run_history g
        /\ history_listbox g' = history_listbox g
        /\ tests_total g' = tests_total g
        /\ tests_passed g' = tests_passed g
        /\ tests_failed g' = tests_failed g
        /\ tests_errors g' = tests_errors g
        /\ tests_skipped g' = tests_skipped g)
  /\ (selected_path g = None \/ selected_path g = Some "" -> r = Finished g).
Proof.
  intro r. subst r.
  destruct (RunCases.run_tests_cases E g)
    as [[Hno ->] | (path & Hsel & Hne & [[Hrun ->] | Hdone])].
  - cbn [left_by].
    split; [reflexivity|]. split; [reflexivity|]. split; [reflexivity|].
    split; [left; reflexivity|].
    split; [intros g' H; discriminate H | reflexivity].
  - cbn [left_by].
    split; [reflexivity|]. split; [reflexivity|]. split; [reflexivity|].
    split; [left; reflexivity|]. split.
    + intros g' H. injection H as <-. repeat split.
    + intros [H|H]; rewrite Hsel in H; [discriminate | congruence].
  - destruct Hdone as (stdout & stderr & rc & Hrun & ->). cbn [left_by].
    split; [reflexivity|]. split; [reflexivity|]. split; [reflexivity|].
    split; [|split].
    + right. exists (new_entry E g path stdout stderr rc).
      split; [reflexivity|].
      split; [apply RunCases.after_run_history|].
      rewrite RunCases.after_run_history. apply HistoryFacts.newest_record.
    + intros g' H. discriminate H.
    + intros [H|H]; rewrite Hsel in H; [discriminate | congruence].
Qed.

(** ** Stripping, the status cursor and the scanline *)

Module StripFacts.
Import Str Str2.

Lemma rstrip_keeps_head (c : ascii) (s : string) :
  is_space c = false -> truthy (rstrip (String c s)) = true.
Proof.
  intro Hc. cbn [rstrip]. destruct (rstrip s); [rewrite Hc|]; reflexivity.
Qed.

(** [strip] leaves nothing exactly when there is only white space. *)
Lemma strip_truthy (s : string) : truthy (strip s) = negb (all_space s).
Proof.
  unfold strip. induction s as [|c s IH]; [reflexivity|].
  cbn [lstrip all_space]. destruct (is_space c) eqn:Hc; simpl.
  - exact IH.
  - apply (rstrip_keeps_head c s Hc).
Qed.

Lemma all_space_app (a b : string) :
  all_space (a ++ b) = all_space a && all_space b.
Proof.
  induction a as [|c a IH]; simpl; [reflexivity|].
  now rewrite IH, andb_assoc.
Qed.

Lemma endswith_char_snoc (c d : ascii) (s : string) :
  endswith_char c (s ++ String d "") = Ascii.eqb d c.
Proof.
  induction s as [|x s IH]; [reflexivity|].
  cbn [append endswith_char]. rewrite IH.
  destruct (s ++ String d "") eqn:Hs; [|reflexivity].
  destruct s; discriminate Hs.
Qed.

Lemma drop_last_snoc (d : ascii) (s : string) :
  drop_last (s ++ String d "") = s.
Proof.
  induction s as [|x s IH]; [reflexivity|].
  cbn [append drop_last]. rewrite IH.
  destruct (s ++ String d "") eqn:Hs; [|reflexivity].
  destruct s; discriminate Hs.
Qed.

Lemma rstrip_snoc_space (d : ascii) (s : string) :
  is_space d = true -> rstrip (s ++ String d "") = rstrip s.
Proof.
  intro Hd. induction s as [|x s IH].
  - simpl. now rewrite Hd.
  - cbn [append rstrip]. now rewrite IH.
Qed.

Lemma rstrip_idem (s : string) : rstrip (rstrip s) = rstrip s.
Proof.
  induction s as [|c s IH]; [reflexivity|].
  cbn [rstrip]. destruct (rstrip s) as [|d r] eqn:Hr.
  - destruct (is_space c) eqn:Hc; [reflexivity|].
    simpl. now rewrite Hc.
  - cbn [rstrip]. cbn [rstrip] in IH. rewrite IH. reflexivity.
Qed.

End StripFacts.

(** X15: Two blinks, starting with the cursor shown, strip the white space in
    front of the underscore for good: the label [t_] has become
    [rstrip(t)_], a label without underscore [t] has become [rstrip(t)_];
    nothing else in the window changes, and two more blinks change
    nothing at all. *)
Theorem blink_twice (w : window) :
  cursor_on w = true ->
  let settled :=
    relabel (Str2.rstrip (label_body (cursor_label (core w))) ++ "_") w in
  _blink_cursor (_blink_cursor w) = settled
  /\ _blink_cursor (_blink_cursor settled) = settled.
Proof.
  intro Hon.
  assert (Step : forall v, cursor_on v = true ->
            _blink_cursor (_blink_cursor v)
            = relabel (Str2.rstrip (label_body (cursor_label (core v)))
                         ++ "_") v).
  { intros v Hv. unfold _blink_cursor, relabel, label_body.
    cbn [cursor_on core cursor_label set_cursor_label mode_var select_button
         run_button path_label boot_in_progress scan_x scanline].
    rewrite Hv. cbn [negb].
    destruct (Str2.endswith_char "_" (cursor_label (core v))) eqn:He.
    - rewrite StripFacts.endswith_char_snoc. cbn [Ascii.eqb Bool.eqb negb].
      rewrite StripFacts.rstrip_snoc_space by reflexivity. reflexivity.
    - rewrite He. reflexivity. }
  split; [apply Step, Hon|].
  rewrite Step by exact Hon.
  unfold relabel, label_body.
  cbn [core cursor_label set_cursor_label mode_var select_button run_button
       path_label cursor_on boot_in_progress scan_x scanline].
  rewrite StripFacts.endswith_char_snoc. cbn [Ascii.eqb Bool.eqb].
  rewrite StripFacts.drop_last_snoc, StripFacts.rstrip_idem. reflexivity.
Qed.

(** [> READY _] reads [> READY_] after two blinks. *)
Lemma blink_twice_witness :
  cursor_label
    (core (_blink_cursor (_blink_cursor (relabel "> READY _" window_init))))
  = "> READY_".
Proof.
  destruct (blink_twice (relabel "> READY _" window_init) eq_refl)
    as [H _].
  rewrite H. reflexivity.
Defined.

(** X16: On a canvas with room and with the scanline inside it, the rectangle
    drawn lies inside the canvas, is at most 80 wide, and the scanline
    stays inside: it moves 12 to the right or starts again at -80. *)
Theorem scanline_stays_inside (width height : Z) (w : window) :
  (0 < width)%Z -> (0 < height)%Z ->
  (-80 <= scan_x w <= width)%Z ->
  let w' := _animate_scanline width height w in
  (exists x2,
      scanline w' = Some (scan_x w, 0, x2, height)%Z
      /\ (scan_x w <= x2 <= width)%Z
      /\ (x2 - scan_x w <= 80)%Z)
  /\ (-80 <= scan_x w' <= width)%Z
  /\ (scan_x w' = scan_x w + 12 \/ scan_x w' = -80)%Z
  /\ core w' = core w.
Proof.
  intros Hw Hh Hx. unfold _animate_scanline.
  replace (0 <? width)%Z with true by (symmetry; apply Z.ltb_lt; lia).
  replace (0 <? height)%Z with true by (symmetry; apply Z.ltb_lt; lia).
  cbn [andb scanline scan_x core].
  split; [|split; [|split]].
  - eexists. split; [reflexivity|].
    destruct (Z.ltb_spec width (scan_x w + 80)); lia.
  - destruct (Z.ltb_spec width (scan_x w + 12)); lia.
  - destruct (Z.ltb_spec width (scan_x w + 12)); [right | left]; reflexivity.
  - reflexivity.
Qed.

(** On a canvas 100 wide the scanline at 95 is drawn up to the edge and
    starts again. *)
Lemma scanline_stays_inside_witness :
  scanline (_animate_scanline 100 6
              (mkWindow init "file" (mkButton "" true "") (mkButton "" false "")
                        "" true false 95 None))
  = Some (95, 0, 100, 6)%Z
  /\ scan_x (_animate_scanline 100 6
               (mkWindow init "file" (mkButton "" true "")
                         (mkButton "" false "") "" true false 95 None))
     = (-80)%Z.
Proof.
  destruct (scanline_stays_inside 100 6
              (mkWindow init "file" (mkButton "" true "")
                        (mkButton "" false "") "" true false 95 None)
              ltac:(lia) ltac:(lia) ltac:(simpl; lia))
    as ((x2 & Hs & Hx2 & _) & _ & [Hstep|Hback] & _).
  - exfalso.
    pose proof (scanline_stays_inside 100 6
              (mkWindow init "file" (mkButton "" true "")
                        (mkButton "" false "") "" true false 95 None)
              ltac:(lia) ltac:(lia) ltac:(simpl; lia)) as (_ & Hb & _).
    rewrite Hstep in Hb. simpl in Hb. lia.
  - split; [reflexivity | exact Hback].
Defined.

(** ** Saving *)

Module SaveFacts.
Import Str Str2.

Lemma ensure_output_exists_iff (g : gui) :
  fst (_ensure_output_exists g) = negb (all_space (output_text g)).
Proof.
  unfold _ensure_output_exists, get_all.
  pose proof (StripFacts.strip_truthy (output_text g ++ nl)) as H.
  rewrite StripFacts.all_space_app in H. cbn [all_space] in H.
  change (is_space LF) with true in H. rewrite !andb_true_r in H.
  destruct (truthy (strip (output_text g ++ nl))); rewrite <- H; reflexivity.
Qed.

Lemma ensure_blank (g : gui) :
  all_space (output_text g) = true ->
  _ensure_output_exists g
  = (false, [Showinfo "No output" "No terminal feed yet. Run pytest first."]).
Proof.
  intro Hb. pose proof (ensure_output_exists_iff g) as H.
  rewrite Hb in H. unfold _ensure_output_exists in *.
  destruct (truthy (strip (get_all g))); [discriminate H | reflexivity].
Qed.

Lemma ensure_not_blank (g : gui) :
  all_space (output_text g) = false ->
  _ensure_output_exists g = (true, []).
Proof.
  intro Hb. pose proof (ensure_output_exists_iff g) as H.
  rewrite Hb in H. unfold _ensure_output_exists in *.
  destruct (truthy (strip (get_all g))); [reflexivity | discriminate H].
Qed.

Lemma substring_middle (a b c : string) :
  substring (length a) (length b) (a ++ b ++ c) = b.
Proof.
  induction a as [|x a IH]; simpl.
  - induction b as [|y b IHb]; simpl.
    + destruct c; reflexivity.
    + now rewrite IHb.
  - exact IH.
Qed.

Lemma append_inj_l (a b c : string) : a ++ b = a ++ c -> b = c.
Proof.
  induction a as [|x a IH]; simpl; intro H; [exact H|].
  injection H as H. auto.
Qed.

Lemma length_append (a b : string) : length (a ++ b) = length a + length b.
Proof. induction a as [|x a IH]; simpl; [reflexivity | now rewrite IH]. Qed.

Lemma append_inj_r (a b c : string) : a ++ c = b ++ c -> a = b.
Proof.
  revert b; induction a as [|x a IH]; intros [|y b] H; simpl in H.
  - reflexivity.
  - apply (f_equal length) in H. simpl in H. rewrite length_append in H. lia.
  - apply (f_equal length) in H. simpl in H. rewrite length_append in H. lia.
  - injection H as -> H. now rewrite (IH b H).
Qed.

Lemma save_writes_all (file_path : string) (os_error : option string)
        (g : gui) :
  written (save_output_txt file_path os_error g)
  = (if Str2.all_space (output_text g) || negb (Str.truthy file_path)
        || is_some os_error
     then []
     else [(file_path, output_text g ++ Str.nl)])
  /\ written (save_output_html file_path os_error g)
     = (if Str2.all_space (output_text g) || negb (Str.truthy file_path)
           || is_some os_error
        then []
        else [(file_path, html_head ++ (output_text g ++ Str.nl) ++ html_tail)])
  /\ (Str2.all_space (output_text g) = true ->
      save_output_txt file_path os_error g
      = [Showinfo "No output" "No terminal feed yet. Run pytest first."]
      /\ save_output_html file_path os_error g
         = [Showinfo "No output" "No terminal feed yet. Run pytest first."]).
Proof.
  unfold save_output_txt, save_output_html.
  destruct (Str2.all_space (output_text g)) eqn:Hb.
  - rewrite (ensure_blank g Hb). cbn. repeat split.
  - rewrite (ensure_not_blank g Hb). cbn [negb orb].
    destruct (Str.truthy file_path), os_error; cbn;
      (split; [reflexivity | split; [reflexivity | intro H; discriminate H]]).
Qed.

End SaveFacts.

(** X12: Saving writes a file only when the terminal holds something besides
    white space, a path was chosen and the file system raised no
    [OSError]; it then writes one file: the terminal text and its closing
    newline as they are for TXT, and inside the fixed HTML frame for HTML.
    A blank terminal only brings up the "No output" notice. *)
Theorem save_writes (file_path : string) (os_error : option string)
        (g : gui) :
  written (save_output_txt file_path os_error g)
  = (if Str2.all_space (output_text g) || negb (Str.truthy file_path)
        || is_some os_error
     then []
     else [(file_path, output_text g ++ Str.nl)])
  /\ written (save_output_html file_path os_error g)
     = (if Str2.all_space (output_text g) || negb (Str.truthy file_path)
           || is_some os_error
        then []
        else [(file_path, html_head ++ (output_text g ++ Str.nl) ++ html_tail)])
  /\ (Str2.all_space (output_text g) = true ->
      save_output_txt file_path os_error g
      = [Showinfo "No output" "No terminal feed yet. Run pytest first."]
      /\ save_output_html file_path os_error g
         = [Showinfo "No output" "No terminal feed yet. Run pytest first."]).
Proof. apply SaveFacts.save_writes_all. Qed.

(** X13: The terminal text is put into the HTML page as it is: nothing is
    escaped, so the text is read back at a fixed offset, and two pages are
    equal only for equal texts. *)
Theorem html_of_verbatim (content other : string) :
  substring (length html_head) (length content) (html_of content) = content
  /\ length (html_of content)
     = length html_head + length content + length html_tail
  /\ (html_of content = html_of other -> content = other).
Proof.
  unfold html_of. split; [apply SaveFacts.substring_middle|]. split.
  - rewrite !SaveFacts.length_append. lia.
  - intro H. apply SaveFacts.append_inj_l in H.
    now apply SaveFacts.append_inj_r in H.
Qed.

(** Markup in the output goes into the page unescaped. *)
Lemma html_of_verbatim_witness :
  Str.contains "<pre>" (html_of "</pre><b>x</b>") = true
  /\ (html_of "a<b" = html_of "a&lt;b" -> False).
Proof.
  split; [reflexivity|].
  intro H.
  destruct (html_of_verbatim "a<b" "a&lt;b") as (_ & _ & Hinj).
  discriminate (Hinj H).
Defined.

(** X14: Saving as TXT right after a completed run writes exactly the snapshot
    the run stored in the history; after the snapshot is recalled from the
    history, saving writes it with one more newline at its end. *)
Theorem save_after_run
        (E : env) (g : gui) (path stdout stderr : string) (rc : Z)
        (file_path : string) :
  selected_path g = Some path ->
  path <> "" ->
  run_pytest E path (is_directory g) (Some (flag_var g))
  = Some (stdout, stderr, rc) ->
  file_path <> "" ->
  exists g' e,
    run_tests E g = Finished g'
    /\ newest (run_history g') = Some e
    /\ written (save_output_txt file_path None g') = [(file_path, output e)]
    /\ written (save_output_html file_path None g')
       = [(file_path, html_of (output e))]
    /\ written (save_output_txt file_path None (show_entry e g'))
       = [(file_path, output e ++ Str.nl)].
Proof.
  intros Hsel Hpath Hrun Hfile.
  exists (after_run E g path stdout stderr rc),
         (new_entry E g path stdout stderr rc).
  split; [now apply RunCases.run_tests_finished|].
  split; [rewrite RunCases.after_run_history;
          apply HistoryFacts.newest_record|].
  apply StrFacts.truthy_neq in Hfile.
  destruct (SaveFacts.save_writes_all file_path None
              (after_run E g path stdout stderr rc)) as (Ht & Hh & _).
  destruct (SaveFacts.save_writes_all file_path None
              (show_entry (new_entry E g path stdout stderr rc)
                 (after_run E g path stdout stderr rc))) as (Hr & _ & _).
  rewrite Ht, Hh, Hr, Hfile.
  split; [reflexivity|]. split; reflexivity.
Qed.

(** The run of the sample window, saved. *)
Lemma save_after_run_witness :
  exists g' e,
    run_tests Sample.env_errors Sample.picked = Finished g'
    /\ newest (run_history g') = Some e
    /\ written (save_output_txt "out.txt" None g') = [("out.txt", output e)].
Proof.
  destruct (save_after_run
              Sample.env_errors Sample.picked "/tmp/t/test_a.py"
              "2 errors in 0.5s" "ImportError: no module" 2%Z "out.txt"
              eq_refl ltac:(discriminate) eq_refl ltac:(discriminate))
    as (g' & e & Hfin & Hnew & Htxt & _).
  exists g', e. split; [exact Hfin|]. split; [exact Hnew | exact Htxt].
Defined.

(** ** What holds in every window the program reaches *)

Module ReachFacts.

(** [window_ok] looks at the history, the list box, the counters and the
    HUD labels only. *)
Lemma window_ok_same (g g' : gui) :
  run_history g' = run_history g ->
  history_listbox g' = history_listbox g ->
  mkCounts (tests_total g') (tests_passed g') (tests_failed g')
           (tests_errors g') (tests_skipped g')
  = mkCounts (tests_total g) (tests_passed g) (tests_failed g)
             (tests_errors g) (tests_skipped g) ->
  (summary_total g', summary_passed g', summary_failed g',
   summary_errors g', summary_skipped g')
  = (summary_total g, summary_passed g, summary_failed g,
     summary_errors g, summary_skipped g) ->
  window_ok g -> window_ok g'.
Proof.
  intros Hh Hl Hc Hs.
  injection Hc as Ht Hp Hf He Hk. injection Hs as S1 S2 S3 S4 S5.
  unfold window_ok, listbox_in_step, labels_in_step.
  rewrite Hh, Hl, Ht, Hp, Hf, He, Hk, S1, S2, S3, S4, S5. trivial.
Qed.

Lemma window_ok_init : window_ok init.
Proof.
  unfold window_ok, listbox_in_step, labels_in_step. simpl.
  repeat split; try reflexivity; try lia. constructor.
Qed.

Lemma window_ok_after_run
      (E : env) (g : gui) (path stdout stderr : string) (rc : Z) :
  window_ok g -> window_ok (after_run E g path stdout stderr rc).
Proof.
  intros (_ & _ & _ & _ & Hall).
  unfold window_ok, listbox_in_step, labels_in_step.
  rewrite RunCases.after_run_history.
  split; [reflexivity|].
  split; [unfold after_run; RunCases.project; repeat split|].
  split; [apply HistoryFacts.record_length|].
  split.
  - unfold after_run. RunCases.project. unfold parse_counts. reflexivity.
  - unfold record. apply HistoryFacts.last5_Forall, Forall_app.
    split; [exact Hall|].
    constructor; [apply RunCases.new_entry_ok | constructor].
Qed.

Lemma window_ok_left_by (E : env) (g : gui) :
  window_ok g -> window_ok (left_by (run_tests E g)).
Proof.
  intro H.
  destruct (RunCases.run_tests_cases E g)
    as [[_ ->] | (path & _ & _ & [[_ ->] | (o & e & rc & _ & ->)])];
    cbn [left_by].
  - exact H.
  - apply (window_ok_same g); try reflexivity. exact H.
  - now apply window_ok_after_run.
Qed.

(** The handler leaves the window as it is or shows one entry. *)
Lemma select_result (selection : list Z) (g g' : gui) :
  _on_history_select selection g = Some g' ->
  g' = g \/ exists e, g' = show_entry e g.
Proof.
  intro Hsel. destruct selection as [|i rest].
  - injection Hsel as <-. now left.
  - destruct (Z_lt_ge_dec i 0) as [Hneg|Hpos].
    { rewrite SelectFacts.select_out_of_range in Hsel by lia.
      injection Hsel as <-. now left. }
    destruct (Z_lt_ge_dec i (Z.of_nat (List.length (run_history g))))
      as [Hlt|Hge].
    + destruct (SelectFacts.select_in_range g i rest ltac:(lia))
        as (e & _ & He). rewrite He in Hsel. injection Hsel as <-.
      destruct (Str.truthy (output e)); [right; now exists e | now left].
    + rewrite SelectFacts.select_out_of_range in Hsel by lia.
      injection Hsel as <-. now left.
Qed.

Lemma window_ok_select (selection : list Z) (g g' : gui) :
  _on_history_select selection g = Some g' -> window_ok g -> window_ok g'.
Proof.
  intros Hsel H.
  destruct (select_result _ _ _ Hsel) as [-> | [e ->]]; [exact H|].
  apply (window_ok_same g); try reflexivity. exact H.
Qed.

Lemma left_by_keeps (E : env) (g : gui) :
  selected_path (left_by (run_tests E g)) = selected_path g
  /\ is_directory (left_by (run_tests E g)) = is_directory g
  /\ flag_var (left_by (run_tests E g)) = flag_var g.
Proof.
  destruct (RunCases.run_tests_cases E g)
    as [[_ ->] | (path & _ & _ & [[_ ->] | (o & e & rc & _ & ->)])];
    repeat split.
Qed.

(** [target_ok] looks at the target and its kind in the core. *)
Lemma target_ok_core (g : gui) (w : window) :
  selected_path g = selected_path (core w) ->
  is_directory g = is_directory (core w) ->
  target_ok w -> target_ok (set_core g w).
Proof.
  intros Hs Hd. unfold target_ok.
  cbn [core set_core run_button path_label mode_var].
  rewrite Hs, Hd. trivial.
Qed.

Lemma flag_core (g : gui) (w : window) :
  flag_var g = flag_var (core w) ->
  In (flag_var (core w)) ["Normal"; "-q"; "-vv"; "-x"] ->
  In (flag_var (core (set_core g w))) ["Normal"; "-q"; "-vv"; "-x"].
Proof. intros H Hin. cbn [core set_core]. rewrite H. exact Hin. Qed.

(** A step that puts [g] in place of the core and leaves the data, the
    target and the flag as they were keeps the window in order. *)
Lemma reachable_ok_core (g : gui) (w : window) :
  window_ok g ->
  selected_path g = selected_path (core w) ->
  is_directory g = is_directory (core w) ->
  flag_var g = flag_var (core w) ->
  reachable_ok w -> reachable_ok (set_core g w).
Proof.
  intros Hok Hs Hd Hf (_ & Ht & Hm & Hfl & Hb).
  split; [exact Hok|]. split; [now apply target_ok_core|].
  split; [exact Hm|]. split; [now apply flag_core | exact Hb].
Qed.

Lemma reachable_inv (w : window) : reachable w -> reachable_ok w.
Proof.
  induction 1 as [ | w _ IH | w index _ IH Hidx | w width height _ IH
                 | w _ IH | w value _ IH Hval | w picked _ IH
                 | w value _ IH Hval | w typed _ IH | w E _ IH
                 | w selection _ IH ].
  - (* the start *)
    split; [|split; [|split; [|split]]].
    + apply (window_ok_same init); try reflexivity.
      apply window_ok_init.
    + left. repeat split.
    + now left.
    + simpl. tauto.
    + reflexivity.
  - (* the boot starts *)
    unfold _start_boot_sequence, _boot_step.
    cbn [Z.ltb Z.of_nat List.length _boot_lines py_index Z.leb Z.compare
         nth_error Z.to_nat fst Pos.compare Pos.compare_cont
         Pos.of_succ_nat Pos.succ].
    apply (reachable_ok_core _ (set_core _ w)); try reflexivity.
    + destruct IH as (Hok & _).
      apply (window_ok_same (core w)); try reflexivity. exact Hok.
    + apply (reachable_ok_core _ w); try reflexivity; [|exact IH].
      destruct IH as (Hok & _).
      apply (window_ok_same (core w)); try reflexivity. exact Hok.
  - (* a boot step *)
    unfold _boot_step.
    destruct (index <? Z.of_nat (List.length _boot_lines))%Z.
    + destruct (py_index _boot_lines index) as [line|]; [|exact IH].
      cbn [fst].
      apply (reachable_ok_core _ w); try reflexivity; [|exact IH].
      destruct IH as (Hok & _).
      apply (window_ok_same (core w)); try reflexivity. exact Hok.
    + cbn [fst]. destruct IH as (Hok & Ht & Hm & Hfl & _).
      split; [|split; [|split; [|split]]].
      * apply (window_ok_same (core w)); try reflexivity.
        exact Hok.
      * exact Ht.
      * exact Hm.
      * exact Hfl.
      * reflexivity.
  - (* the scanline *)
    unfold _animate_scanline.
    destruct ((0 <? width)%Z && (0 <? height)%Z); exact IH.
  - (* the cursor blinks *)
    destruct IH as (Hok & Ht & Hm & Hfl & Hb).
    split; [|split; [|split; [|split]]].
    + apply (window_ok_same (core w)); try reflexivity. exact Hok.
    + exact Ht.
    + exact Hm.
    + exact Hfl.
    + exact Hb.
  - (* a radio button *)
    destruct IH as (Hok & _ & _ & Hfl & Hb).
    split; [|split; [|split; [|split]]].
    + apply (window_ok_same (core w)); try reflexivity. exact Hok.
    + left. repeat split.
    + exact Hval.
    + exact Hfl.
    + unfold click_radio, _on_mode_change.
      cbn [mode_var select_button boot_in_progress].
      destruct (String.eqb value "file"); exact Hb.
  - (* a target is picked, or the dialog cancelled *)
    unfold select_path.
    destruct (Str.truthy picked) eqn:Hp; [|exact IH]. cbn [negb].
    destruct IH as (Hok & _ & Hm & Hfl & Hb).
    split; [|split; [|split; [|split]]].
    + apply (window_ok_same (core w)); try reflexivity. exact Hok.
    + right. exists picked.
      split; [reflexivity|].
      split; [now apply StrFacts.truthy_neq|].
      split; [reflexivity|]. split; [reflexivity|].
      cbn [path_label core is_directory insert_end set_output_text
           set_target].
      destruct (String.eqb (mode_var w) "file"); reflexivity.
    + exact Hm.
    + exact Hfl.
    + exact Hb.
  - (* a flag is chosen *)
    destruct IH as (Hok & Ht & Hm & _ & Hb).
    split; [|split; [|split; [|split]]].
    + apply (window_ok_same (core w)); try reflexivity. exact Hok.
    + apply target_ok_core; [reflexivity | reflexivity | exact Ht].
    + exact Hm.
    + exact Hval.
    + exact Hb.
  - (* the terminal is edited *)
    apply reachable_ok_core; try reflexivity; [|exact IH].
    destruct IH as (Hok & _).
    apply (window_ok_same (core w)); try reflexivity. exact Hok.
  - (* a run *)
    unfold run_tests_window.
    pose proof (window_ok_left_by E (core w) (proj1 IH)) as Hok.
    destruct (left_by_keeps E (core w)) as (Hs & Hd & Hf).
    destruct (run_tests E (core w)) as [g|g]; cbn [left_by] in *;
      now apply reachable_ok_core.
  - (* a row of the list box *)
    unfold select_history.
    destruct (_on_history_select selection (core w)) as [g|] eqn:Hsel;
      [|exact IH].
    pose proof (window_ok_select _ _ _ Hsel (proj1 IH)) as Hok.
    destruct (select_result _ _ _ Hsel) as [-> | [e ->]];
      apply reachable_ok_core; try reflexivity; assumption.
Qed.

End ReachFacts.


(** An interrupted run leaves the history and the counters alone. *)
Lemma run_tests_changes_witness :
  exists g',
    run_tests Sample2.env_interrupted Sample.g6 = Escaped g'
    /\ run_history g' = run_history Sample.g6
    /\ output_text g'
       = "[BOOT] pytest engaged on FILE:" ++ Str.nl
           ++ "/tmp/t/test_a.py" ++ Str.nl ++ Str.nl.
Proof.
  destruct (run_tests_changes Sample2.env_interrupted Sample.g6)
    as (_ & _ & _ & _ & Hesc & _).
  eexists. split; [reflexivity|].
  split; [|reflexivity].
  apply (Hesc _ eq_refl).
Defined.

(** A blank terminal is not saved; a cancelled dialog saves nothing. *)
Lemma save_writes_witness :
  save_output_txt "out.txt" None init
  = [Showinfo "No output" "No terminal feed yet. Run pytest first."]
  /\ written (save_output_html "" None Sample.g6) = [].
Proof.
  destruct (save_writes "out.txt" None init) as (_ & _ & Hblank).
  destruct (save_writes "" None Sample.g6) as (_ & Hh & _).
  split; [apply Hblank; reflexivity|].
  rewrite Hh. reflexivity.
Defined.



(** ** The sentinel, spelled out *)

(** X17: The flag is left out of the command exactly when it is empty or
    the word "normal" written in any mix of upper and lower case; every
    other text, such as the word with a space after it, is passed on. *)
Theorem flag_left_out_iff (exe target_path : string) (f : string) :
  (build_cmd exe target_path (Some f) = [exe; "-m"; "pytest"; target_path]
   <-> f = "" \/ spelt_normal f = true)
  /\ (build_cmd exe target_path (Some f)
      = [exe; "-m"; "pytest"; f; target_path]
      <-> f <> "" /\ spelt_normal f = false).
Proof.
  pose proof (InvokerFacts.lower_normal_iff f) as Hlow.
  unfold build_cmd, flag_given.
  destruct f as [|c f'] eqn:Hf.
  - cbn. split; split; intro H.
    + now left.
    + reflexivity.
    + discriminate H.
    + destruct H as [H _]. congruence.
  - rewrite <- Hf in *. assert (Ht : Str.truthy f = true) by now subst f.
    rewrite Ht. cbn [andb].
    destruct (String.eqb_spec (Str.lower f) "normal") as [Heq|Hneq]; cbn.
    + apply Hlow in Heq. split; split; intro H.
      * now right.
      * reflexivity.
      * discriminate H.
      * destruct H as [_ H]. congruence.
    + assert (Hs : spelt_normal f = false).
      { destruct (spelt_normal f) eqn:Hs; [|reflexivity].
        exfalso. apply Hneq, Hlow. reflexivity. }
      split; split; intro H.
      * apply (f_equal (@List.length string)) in H. discriminate H.
      * destruct H as [H|H]; [subst f; discriminate | congruence].
      * split; [subst f; discriminate | exact Hs].
      * reflexivity.
Qed.

(** "NoRmAl" is left out; "Normal " with a final space is passed on. *)
Lemma flag_left_out_iff_witness :
  build_cmd "python" "t.py" (Some "NoRmAl") = ["python"; "-m"; "pytest"; "t.py"]
  /\ build_cmd "python" "t.py" (Some "Normal ")
     = ["python"; "-m"; "pytest"; "Normal "; "t.py"].
Proof.
  destruct (flag_left_out_iff "python" "t.py" "NoRmAl") as [[_ H1] _].
  destruct (flag_left_out_iff "python" "t.py" "Normal ") as [_ [_ H2]].
  split.
  - apply H1. right. reflexivity.
  - apply H2. split; [discriminate | reflexivity].
Defined.

(** * The program under the interpreter's conversion limit *)

Module CheckedFacts.

Lemma too_long_zero (digits : nat) : Checked.too_long 0 digits = false.
Proof. reflexivity. Qed.

Lemma format_N_zero (n : N) : Checked.format_N 0 n = Some (Str.of_N n).
Proof. reflexivity. Qed.

Lemma format_N_some (limit : nat) (n : N) (s : string) :
  Checked.format_N limit n = Some s -> s = Str.of_N n.
Proof.
  unfold Checked.format_N. destruct (Checked.too_long limit (length (Str.of_N n)));
    intro H; [discriminate H | now injection H].
Qed.

Lemma fits_all_zero (l : list string) : fits_all 0 l = true.
Proof. induction l as [|x l IH]; [reflexivity | exact IH]. Qed.

Lemma fits_all_app (limit : nat) (l1 l2 : list string) :
  fits_all limit (l1 ++ l2) = fits_all limit l1 && fits_all limit l2.
Proof. apply forallb_app. Qed.

(** The groups that [finditer] yields are the texts of the numbers of
    [Re.finditer]. *)
Lemma finditer_groups_values (key s : string) (skip : nat) :
  map Str.int_of_digits (Checked.finditer_groups_from key skip s)
  = Re.finditer_from key skip s.
Proof.
  revert skip; induction s as [|c s IH]; intro skip; [reflexivity|].
  cbn [Checked.finditer_groups_from Re.finditer_from].
  destruct skip as [|n]; [|apply IH].
  destruct (Re.match_here key (String c s)) as [[ds rest]|].
  - cbn [map]. now rewrite IH.
  - apply IH.
Qed.

Lemma fold_add_group_none (limit : nat) (label : string) (l : list string) :
  fold_left (Checked.add_group limit label) l None = None.
Proof. induction l as [|x l IH]; [reflexivity | exact IH]. Qed.

(** The innermost loop raises exactly when a group is too long, and
    otherwise adds what the loop without limit adds. *)
Lemma fold_add_group (limit : nat) (label : string) (l : list string)
      (t : Tally.t) :
  fold_left (Checked.add_group limit label) l (Some t)
  = if fits_all limit l
    then Some (fold_left (fun t' value => add_value label value t')
                         (map Str.int_of_digits l) t)
    else None.
Proof.
  revert t; induction l as [|ds l IH]; intro t; [reflexivity|].
  cbn [fold_left map fits_all forallb Checked.add_group]. unfold Checked.int_checked.
  destruct (Checked.too_long limit (length ds)); cbn [negb andb].
  - apply fold_add_group_none.
  - apply IH.
Qed.

Lemma scan_key_none (limit : nat) (line : string) (kls : list (string * string)) :
  fold_left (Checked.scan_key limit line) kls None = None.
Proof.
  induction kls as [|kl kls IH]; [reflexivity|].
  cbn [fold_left]. unfold Checked.scan_key at 2.
  rewrite fold_add_group_none. exact IH.
Qed.

Lemma scan_keys (limit : nat) (line : string) (kls : list (string * string))
      (t : Tally.t) :
  fold_left (Checked.scan_key limit line) kls (Some t)
  = if fits_all limit
         (flat_map (fun kl : string * string => Checked.finditer_groups (fst kl) line)
                   kls)
    then Some (fold_left (scan_key line) kls t)
    else None.
Proof.
  revert t; induction kls as [|kl kls IH]; intro t; [reflexivity|].
  cbn [fold_left flat_map]. rewrite fits_all_app.
  unfold Checked.scan_key at 2. rewrite fold_add_group.
  destruct (fits_all limit (Checked.finditer_groups (fst kl) line)); cbn [andb].
  - rewrite IH. unfold scan_key at 2, Checked.finditer_groups, Re.finditer.
    now rewrite finditer_groups_values.
  - apply scan_key_none.
Qed.

Lemma scan_lines_none (limit : nat) (lines : list string) :
  fold_left (Checked.scan_line limit) lines None = None.
Proof.
  induction lines as [|l lines IH]; [reflexivity|].
  cbn [fold_left]. unfold Checked.scan_line at 2.
  destruct (is_candidate l); [rewrite scan_key_none|]; exact IH.
Qed.

Lemma scan_lines (limit : nat) (lines : list string) (t : Tally.t) :
  fold_left (Checked.scan_line limit) lines (Some t)
  = if fits_all limit
         (flat_map
            (fun line =>
               if is_candidate line
               then flat_map (fun kl : string * string =>
                                Checked.finditer_groups (fst kl) line) pattern_map
               else [])
            lines)
    then Some (fold_left scan_line lines t)
    else None.
Proof.
  revert t; induction lines as [|l lines IH]; intro t; [reflexivity|].
  cbn [fold_left flat_map]. rewrite fits_all_app.
  unfold Checked.scan_line at 2, scan_line at 2.
  destruct (is_candidate l).
  - rewrite scan_keys.
    destruct (fits_all limit
                (flat_map (fun kl : string * string =>
                             Checked.finditer_groups (fst kl) l) pattern_map));
      cbn [andb]; [apply IH | apply scan_lines_none].
  - cbn [fits_all forallb andb]. apply IH.
Qed.

(** The loops raise exactly when some digit group is too long; otherwise
    they leave the accumulators of the parser without limit. *)
Lemma tally_of_fits (limit : nat) (text : string) :
  Checked.tally_of limit text
  = if fits_all limit (Checked.groups_of text) then Some (tally_of text) else None.
Proof. apply scan_lines. Qed.

Ltac project :=
  lazy beta iota zeta delta
    [after_run after_escape shown_after_run run_label Checked.before_parse
     Checked.set_counters Checked.set_labels
     _add_run_to_history _parse_test_summary make_entry get_all insert_end
     set_output_text set_cursor_label set_last set_history
     selected_path is_directory last_stdout last_stderr tests_passed
     tests_failed tests_errors tests_skipped tests_total run_history
     flag_var output_text history_listbox cursor_label summary_total
     summary_passed summary_failed summary_errors summary_skipped
     total passed failed errors skipped].

(** What [_parse_test_summary] does under a limit, case by case: a group
    too long for [int] leaves the window untouched; a count too long to be
    formatted leaves the counters assigned and the labels behind; otherwise
    the method returns what it returns without limit. *)
Lemma parse_cases (limit : nat) (text : string) (g : gui) :
  (fits_all limit (Checked.groups_of text) = false
   /\ Checked._parse_test_summary limit text g = Checked.ValueError g)
  \/ (fits_all limit (Checked.groups_of text) = true
      /\ counts_fit limit (parse_counts text) = false
      /\ exists l1 l2 l3 l4 l5,
           Checked._parse_test_summary limit text g
           = Checked.ValueError
               (Checked.set_labels l1 l2 l3 l4 l5
                  (Checked.set_counters (parse_counts text) g)))
  \/ (fits_all limit (Checked.groups_of text) = true
      /\ counts_fit limit (parse_counts text) = true
      /\ Checked._parse_test_summary limit text g
         = Checked.Returned (_parse_test_summary text g)).
Proof.
  unfold Checked._parse_test_summary. rewrite tally_of_fits.
  destruct (fits_all limit (Checked.groups_of text)); [|left; now split].
  right. unfold counts_fit, parse_counts.
  set (t := tally_of text).
  cbn [total passed failed errors skipped].
  set (tot := (Tally.passed t + Tally.failed t + Tally.errors t
               + Tally.skipped t)%N).
  destruct (Checked.format_N limit tot) as [s1|] eqn:H1; cbn [is_some andb];
    [|left; split; [reflexivity|]; split; [reflexivity|];
      do 5 eexists; project; reflexivity].
  destruct (Checked.format_N limit (Tally.passed t)) as [s2|] eqn:H2;
    cbn [is_some andb];
    [|left; split; [reflexivity|]; split; [reflexivity|];
      do 5 eexists; project; reflexivity].
  destruct (Checked.format_N limit (Tally.failed t)) as [s3|] eqn:H3;
    cbn [is_some andb];
    [|left; split; [reflexivity|]; split; [reflexivity|];
      do 5 eexists; project; reflexivity].
  destruct (Checked.format_N limit (Tally.errors t)) as [s4|] eqn:H4;
    cbn [is_some andb];
    [|left; split; [reflexivity|]; split; [reflexivity|];
      do 5 eexists; project; reflexivity].
  destruct (Checked.format_N limit (Tally.skipped t)) as [s5|] eqn:H5;
    cbn [is_some andb];
    [|left; split; [reflexivity|]; split; [reflexivity|];
      do 5 eexists; project; reflexivity].
  right. split; [reflexivity|]. split; [reflexivity|].
  apply format_N_some in H1, H2, H3, H4, H5. subst s1 s2 s3 s4 s5.
  unfold parse_counts. fold t. project. reflexivity.
Qed.

Lemma counts_fit_zero (c : counts_t) : counts_fit 0 c = true.
Proof. reflexivity. Qed.

(** The ways a call of [run_tests] can go under a limit. *)
Lemma run_cases (limit : nat) (E : env) (g : gui) :
  ((selected_path g = None \/ selected_path g = Some "")
   /\ Checked.run_tests limit E g = Checked.Done g)
  \/ exists path,
       selected_path g = Some path /\ path <> ""
       /\ ((run_pytest E path (is_directory g) (Some (flag_var g)) = None
            /\ Checked.run_tests limit E g
               = Checked.Interrupted (after_escape g path))
           \/ exists stdout stderr rc,
                run_pytest E path (is_directory g) (Some (flag_var g))
                = Some (stdout, stderr, rc)
                /\ ((exists g',
                        Checked._parse_test_summary
                          limit (stdout ++ Str.nl ++ stderr)
                          (Checked.before_parse g path stdout stderr)
                        = Checked.ValueError g'
                        /\ Checked.run_tests limit E g
                           = Checked.ParserRaised g')
                    \/ (Checked._parse_test_summary
                          limit (stdout ++ Str.nl ++ stderr)
                          (Checked.before_parse g path stdout stderr)
                        = Checked.Returned
                            (_parse_test_summary
                               (stdout ++ Str.nl ++ stderr)
                               (Checked.before_parse g path stdout stderr))
                        /\ Checked.run_tests limit E g
                           = Checked.Done
                               (after_run E g path stdout stderr rc)))).
Proof.
  unfold Checked.run_tests.
  destruct (selected_path g) as [path|] eqn:Hsel;
    [|left; split; [now left | reflexivity]].
  destruct (string_dec path "") as [->|Hne];
    [left; split; [now right | reflexivity]|].
  right. exists path. split; [reflexivity|]. split; [exact Hne|].
  apply StrFacts.truthy_neq in Hne. rewrite Hne. cbv beta iota zeta.
  cbn [negb].
  assert (Hdir : forall (b : bool) (s1 s2 s3 : string),
             is_directory
               (insert_end s3
                  (if b then insert_end s2 (insert_end s1 (set_output_text "" g))
                   else insert_end s1 (set_output_text "" g)))
             = is_directory g) by (intros [] ? ? ?; reflexivity).
  rewrite Hdir.
  destruct (run_pytest E path (is_directory g) (Some (flag_var g)))
    as [[[stdout stderr] rc]|] eqn:Hrun.
  - right. exists stdout, stderr, rc. split; [reflexivity|].
    match goal with
    | |- context [Checked._parse_test_summary _ _ (if ?b then ?x else ?y)] =>
        replace (if b then x else y)
          with (Checked.before_parse g path stdout stderr)
    end.
    2:{ unfold Checked.before_parse, boot_banner, output_block, errors_block.
        destruct (flag_given (Some (flag_var g))), (Str.truthy stdout),
          (Str.truthy stderr); project; rewrite ?StrFacts.app_assoc;
          reflexivity. }
    destruct (parse_cases limit (stdout ++ Str.nl ++ stderr)
                (Checked.before_parse g path stdout stderr))
      as [[_ Hp] | [(_ & _ & l1 & l2 & l3 & l4 & l5 & Hp) | (_ & _ & Hp)]];
      rewrite Hp.
    + left. eexists. split; reflexivity.
    + left. eexists. split; reflexivity.
    + right. split; [reflexivity|].
      unfold Checked.before_parse, after_run, shown_after_run, boot_banner,
        output_block, errors_block, exit_code_line.
      destruct (flag_given (Some (flag_var g))), (Str.truthy stdout),
        (Str.truthy stderr); project; rewrite ?StrFacts.app_assoc;
        match goal with
        | |- context [if ?c then _ else _] => destruct c
        end; reflexivity.
  - left. split; [reflexivity|].
    unfold after_escape, boot_banner.
    destruct (flag_given (Some (flag_var g))); project;
      rewrite ?StrFacts.app_assoc; reflexivity.
Qed.

End CheckedFacts.

(** ** Windows reached under a limit *)

Module UnderFacts.

Lemma data_ok_same (g g' : gui) :
  run_history g' = run_history g ->
  history_listbox g' = history_listbox g ->
  mkCounts (tests_total g') (tests_passed g') (tests_failed g')
           (tests_errors g') (tests_skipped g')
  = mkCounts (tests_total g) (tests_passed g) (tests_failed g)
             (tests_errors g) (tests_skipped g) ->
  data_ok g -> data_ok g'.
Proof.
  intros Hh Hl Hc. injection Hc as Ht Hp Hf He Hk.
  unfold data_ok, listbox_in_step.
  rewrite Hh, Hl, Ht, Hp, Hf, He, Hk. trivial.
Qed.

Lemma labels_same (g g' : gui) :
  mkCounts (tests_total g') (tests_passed g') (tests_failed g')
           (tests_errors g') (tests_skipped g')
  = mkCounts (tests_total g) (tests_passed g) (tests_failed g)
             (tests_errors g) (tests_skipped g) ->
  (summary_total g', summary_passed g', summary_failed g',
   summary_errors g', summary_skipped g')
  = (summary_total g, summary_passed g, summary_failed g,
     summary_errors g, summary_skipped g) ->
  labels_in_step g -> labels_in_step g'.
Proof.
  intros Hc Hs. injection Hc as Ht Hp Hf He Hk.
  injection Hs as S1 S2 S3 S4 S5. unfold labels_in_step.
  rewrite Ht, Hp, Hf, He, Hk, S1, S2, S3, S4, S5. trivial.
Qed.

Lemma data_ok_after_run
      (E : env) (g : gui) (path stdout stderr : string) (rc : Z) :
  data_ok g -> data_ok (after_run E g path stdout stderr rc).
Proof.
  intros (_ & _ & _ & Hall). unfold data_ok, listbox_in_step.
  rewrite RunCases.after_run_history.
  split; [reflexivity|].
  split; [apply HistoryFacts.record_length|].
  split.
  - unfold after_run. RunCases.project. unfold parse_counts. reflexivity.
  - unfold record. apply HistoryFacts.last5_Forall, Forall_app.
    split; [exact Hall|].
    constructor; [apply RunCases.new_entry_ok | constructor].
Qed.

Lemma labels_after_run
      (E : env) (g : gui) (path stdout stderr : string) (rc : Z) :
  labels_in_step (after_run E g path stdout stderr rc).
Proof.
  unfold labels_in_step, after_run. RunCases.project. repeat split.
Qed.

(** A window the parser left with a [ValueError] has its data in order:
    the history is untouched, and the counters are the old ones or the
    ones just parsed. *)
Lemma parser_raised_left (limit : nat) (text : string) (g g' : gui) :
  Checked._parse_test_summary limit text g = Checked.ValueError g' ->
  selected_path g' = selected_path g
  /\ is_directory g' = is_directory g
  /\ flag_var g' = flag_var g
  /\ (data_ok g -> data_ok g')
  /\ limit <> 0.
Proof.
  intro H.
  destruct (CheckedFacts.parse_cases limit text g)
    as [[Hfit Hp] | [(_ & Hfit & l1 & l2 & l3 & l4 & l5 & Hp) | (_ & _ & Hp)]];
    rewrite Hp in H; [| |discriminate H]; injection H as <-.
  - split; [reflexivity|]. split; [reflexivity|]. split; [reflexivity|].
    split; [trivial|].
    intros ->. now rewrite CheckedFacts.fits_all_zero in Hfit.
  - split; [reflexivity|]. split; [reflexivity|]. split; [reflexivity|].
    split.
    + intros (Hl & Hlen & _ & Hall).
      split; [exact Hl|]. split; [exact Hlen|]. split; [|exact Hall].
      unfold parse_counts. reflexivity.
    + intros ->. now rewrite CheckedFacts.counts_fit_zero in Hfit.
Qed.

(** What a call of [run_tests] keeps, however it ends. *)
Lemma run_left (limit : nat) (E : env) (g : gui) :
  selected_path (Checked.left_by (Checked.run_tests limit E g))
  = selected_path g
  /\ is_directory (Checked.left_by (Checked.run_tests limit E g))
     = is_directory g
  /\ flag_var (Checked.left_by (Checked.run_tests limit E g)) = flag_var g
  /\ (data_ok g -> data_ok (Checked.left_by (Checked.run_tests limit E g)))
  /\ (limit = 0 -> labels_in_step g ->
      labels_in_step (Checked.left_by (Checked.run_tests limit E g))).
Proof.
  destruct (CheckedFacts.run_cases limit E g)
    as [[_ ->] | (path & _ & _ & [[_ ->] | (o & e & rc & _ & Hparse)])];
    cbn [Checked.left_by].
  - split; [reflexivity|]. split; [reflexivity|]. split; [reflexivity|].
    split; trivial.
  - split; [reflexivity|]. split; [reflexivity|]. split; [reflexivity|].
    split.
    + apply data_ok_same; reflexivity.
    + intros _. apply labels_same; reflexivity.
  - destruct Hparse as [(g' & Hp & ->) | [_ ->]]; cbn [Checked.left_by].
    + destruct (parser_raised_left _ _ _ _ Hp) as (Hs & Hd & Hf & Hok & Hl).
      split; [exact Hs|]. split; [exact Hd|]. split; [exact Hf|].
      split.
      * intro H. apply Hok. revert H. apply data_ok_same; reflexivity.
      * intro H0. contradiction.
    + split; [reflexivity|]. split; [reflexivity|]. split; [reflexivity|].
      split; [apply data_ok_after_run|].
      intros _ _. apply labels_after_run.
Qed.

Lemma under_core (limit : nat) (g : gui) (w : window) :
  selected_path g = selected_path (core w) ->
  is_directory g = is_directory (core w) ->
  flag_var g = flag_var (core w) ->
  (data_ok (core w) -> data_ok g) ->
  (limit = 0 -> labels_in_step (core w) -> labels_in_step g) ->
  reachable_under_ok limit w -> reachable_under_ok limit (set_core g w).
Proof.
  intros Hs Hd Hf Hdata Hlab (Hok & Ht & Hm & Hfl & Hb & Hl).
  split; [exact (Hdata Hok)|].
  split; [now apply ReachFacts.target_ok_core|].
  split; [exact Hm|].
  split; [now apply ReachFacts.flag_core|].
  split; [exact Hb|].
  intro H0. exact (Hlab H0 (Hl H0)).
Qed.

(** A change of the terminal text or the status label only. *)
Lemma under_text (limit : nat) (g : gui) (w : window) :
  selected_path g = selected_path (core w) ->
  is_directory g = is_directory (core w) ->
  flag_var g = flag_var (core w) ->
  run_history g = run_history (core w) ->
  history_listbox g = history_listbox (core w) ->
  mkCounts (tests_total g) (tests_passed g) (tests_failed g)
           (tests_errors g) (tests_skipped g)
  = mkCounts (tests_total (core w)) (tests_passed (core w))
             (tests_failed (core w)) (tests_errors (core w))
             (tests_skipped (core w)) ->
  (summary_total g, summary_passed g, summary_failed g,
   summary_errors g, summary_skipped g)
  = (summary_total (core w), summary_passed (core w),
     summary_failed (core w), summary_errors (core w),
     summary_skipped (core w)) ->
  reachable_under_ok limit w -> reachable_under_ok limit (set_core g w).
Proof.
  intros Hs Hd Hf Hh Hl Hc Hlab. apply under_core; trivial.
  - now apply data_ok_same.
  - intros _. now apply labels_same.
Qed.

Lemma under_inv (limit : nat) (w : window) :
  reachable_under limit w -> reachable_under_ok limit w.
Proof.
  induction 1 as [ | w _ IH | w index _ IH Hidx | w width height _ IH
                 | w _ IH | w value _ IH Hval | w picked _ IH
                 | w value _ IH Hval | w typed _ IH | w E _ IH
                 | w selection _ IH ].
  - (* the start *)
    split; [|split; [|split; [|split; [|split]]]].
    + unfold data_ok, listbox_in_step. simpl.
      repeat split; try reflexivity; try lia. constructor.
    + left. repeat split.
    + now left.
    + simpl. tauto.
    + reflexivity.
    + intros _. unfold labels_in_step. simpl. repeat split.
  - (* the boot starts *)
    unfold _start_boot_sequence, _boot_step.
    cbn [Z.ltb Z.of_nat List.length _boot_lines py_index Z.leb Z.compare
         nth_error Z.to_nat fst Pos.compare Pos.compare_cont
         Pos.of_succ_nat Pos.succ].
    apply (under_text limit _ (set_core _ w)); try reflexivity.
    apply (under_text limit _ w); try reflexivity. exact IH.
  - (* a boot step *)
    unfold _boot_step.
    destruct (index <? Z.of_nat (List.length _boot_lines))%Z.
    + destruct (py_index _boot_lines index) as [line|]; [|exact IH].
      cbn [fst]. apply (under_text limit _ w); try reflexivity. exact IH.
    + cbn [fst]. destruct IH as (Hok & Ht & Hm & Hfl & _ & Hl).
      split; [|split; [|split; [|split; [|split]]]].
      * revert Hok. apply data_ok_same; reflexivity.
      * exact Ht.
      * exact Hm.
      * exact Hfl.
      * reflexivity.
      * intro H0. generalize (Hl H0). apply labels_same; reflexivity.
  - (* the scanline *)
    unfold _animate_scanline.
    destruct ((0 <? width)%Z && (0 <? height)%Z); exact IH.
  - (* the cursor blinks *)
    destruct IH as (Hok & Ht & Hm & Hfl & Hb & Hl).
    split; [|split; [|split; [|split; [|split]]]].
    + revert Hok. apply data_ok_same; reflexivity.
    + exact Ht.
    + exact Hm.
    + exact Hfl.
    + exact Hb.
    + intro H0. generalize (Hl H0). apply labels_same; reflexivity.
  - (* a radio button *)
    destruct IH as (Hok & _ & _ & Hfl & Hb & Hl).
    split; [|split; [|split; [|split; [|split]]]].
    + revert Hok. apply data_ok_same; reflexivity.
    + left. repeat split.
    + exact Hval.
    + exact Hfl.
    + unfold click_radio, _on_mode_change.
      cbn [mode_var select_button boot_in_progress].
      destruct (String.eqb value "file"); exact Hb.
    + intro H0. generalize (Hl H0). apply labels_same; reflexivity.
  - (* a target is picked, or the dialog cancelled *)
    unfold select_path.
    destruct (Str.truthy picked) eqn:Hp; [|exact IH]. cbn [negb].
    destruct IH as (Hok & _ & Hm & Hfl & Hb & Hl).
    split; [|split; [|split; [|split; [|split]]]].
    + revert Hok. apply data_ok_same; reflexivity.
    + right. exists picked.
      split; [reflexivity|].
      split; [now apply StrFacts.truthy_neq|].
      split; [reflexivity|]. split; [reflexivity|].
      cbn [path_label core is_directory insert_end set_output_text
           set_target].
      destruct (String.eqb (mode_var w) "file"); reflexivity.
    + exact Hm.
    + exact Hfl.
    + exact Hb.
    + intro H0. generalize (Hl H0). apply labels_same; reflexivity.
  - (* a flag is chosen *)
    destruct IH as (Hok & Ht & Hm & _ & Hb & Hl).
    split; [|split; [|split; [|split; [|split]]]].
    + revert Hok. apply data_ok_same; reflexivity.
    + apply ReachFacts.target_ok_core; [reflexivity | reflexivity | exact Ht].
    + exact Hm.
    + exact Hval.
    + exact Hb.
    + intro H0. generalize (Hl H0). apply labels_same; reflexivity.
  - (* the terminal is edited *)
    apply under_text; try reflexivity. exact IH.
  - (* a run *)
    destruct (run_left limit E (core w)) as (Hs & Hd & Hf & Hdata & Hlab).
    now apply under_core.
  - (* a row of the list box *)
    unfold select_history.
    destruct (_on_history_select selection (core w)) as [g|] eqn:Hsel;
      [|exact IH].
    destruct (ReachFacts.select_result _ _ _ Hsel) as [-> | [e ->]];
      apply under_text; try reflexivity; exact IH.
Qed.

End UnderFacts.

(** ** A number too long for the interpreter *)

Module LimitFacts.

Lemma app_nil_r (a : string) : a ++ "" = a.
Proof. induction a as [|x a IH]; simpl; [reflexivity | now rewrite IH]. Qed.

Lemma no_break_app (a b : string) :
  no_break (a ++ b) = no_break a && no_break b.
Proof.
  induction a as [|c a IH]; [reflexivity|].
  cbn [append no_break]. rewrite IH. now rewrite andb_assoc.
Qed.

Lemma no_break_repeat (c : ascii) (n : nat) :
  negb (Ascii.eqb c Str.CR) && negb (Str.is_linebreak c) = true ->
  no_break (repeat_char c n) = true.
Proof.
  intro Hc. induction n as [|n IH]; [reflexivity|].
  cbn [repeat_char no_break]. now rewrite Hc, IH.
Qed.

(** A text without line breaks is one line. *)
Lemma splitlines_from_one (s cur : string) :
  no_break s = true ->
  Str.splitlines_from cur s
  = if Str.truthy cur || Str.truthy s
    then [Str.rev_append cur "" ++ s] else [].
Proof.
  revert cur; induction s as [|c s IH]; intros cur Hs.
  - cbn [Str.splitlines_from Str.truthy]. rewrite orb_false_r, app_nil_r.
    reflexivity.
  - cbn [no_break] in Hs. apply andb_true_iff in Hs as [Hc Hs].
    apply andb_true_iff in Hc as [Hcr Hlb].
    apply negb_true_iff in Hcr, Hlb.
    cbn [Str.splitlines_from]. rewrite Hcr, Hlb, (IH _ Hs).
    cbn [Str.truthy orb]. rewrite orb_true_r.
    cbn [Str.rev_append].
    rewrite (LineFacts.rev_append_cat cur (String c "")).
    rewrite StrFacts.app_assoc. reflexivity.
Qed.

Lemma length_repeat (c : ascii) (n : nat) : length (repeat_char c n) = n.
Proof. induction n as [|n IH]; simpl; [reflexivity | now rewrite IH]. Qed.

Lemma span_digits_repeat (n : nat) (rest : string) :
  Str.span Str.is_digit rest = ("", rest) ->
  Str.span Str.is_digit (repeat_char "9" n ++ rest)
  = (repeat_char "9" n, rest).
Proof.
  intro Hr. induction n as [|n IH]; [exact Hr|].
  cbn [repeat_char append Str.span].
  change (Str.is_digit "9") with true. cbv iota. now rewrite IH.
Qed.

(** On the line made of [n] nines and [" passed"] the first group handed
    to [int] is the [n] nines. *)
Lemma groups_of_nines (n : nat) :
  0 < n ->
  exists rest,
    Checked.groups_of (repeat_char "9" n ++ " passed")
    = repeat_char "9" n :: rest.
Proof.
  intro Hn. unfold Checked.groups_of, Str.splitlines.
  rewrite splitlines_from_one
    by (rewrite no_break_app, no_break_repeat by reflexivity; reflexivity).
  destruct n as [|n]; [lia|].
  cbn [Str.truthy orb repeat_char append Str.rev_append flat_map].
  change (String "9" (repeat_char "9" n ++ " passed"))
    with (repeat_char "9" (S n) ++ " passed" ++ "").
  unfold is_candidate. rewrite StrFacts.contains_app. cbn [orb].
  cbn [pattern_map flat_map fst].
  assert (Hm : Re.match_here "passed" (repeat_char "9" (S n) ++ " passed")
               = Some (repeat_char "9" (S n), 0)).
  { rewrite ReFacts.match_here_longest by reflexivity.
    unfold match_longest.
    rewrite span_digits_repeat by reflexivity. reflexivity. }
  change (" passed" ++ "") with " passed".
  unfold Checked.finditer_groups at 1.
  cbn [repeat_char append Checked.finditer_groups_from].
  cbn [repeat_char append] in Hm. rewrite Hm.
  eexists. rewrite <- List.app_comm_cons. reflexivity.
Qed.

(** A count written with more digits than the limit allows makes the
    parser raise before anything is assigned. *)
Lemma parse_raises_on_nines (limit n : nat) (g : gui) :
  0 < limit < n ->
  Checked._parse_test_summary limit (repeat_char "9" n ++ " passed") g
  = Checked.ValueError g.
Proof.
  intros [Hl Hn].
  destruct (groups_of_nines n ltac:(lia)) as [rest Hg].
  assert (Hfit : fits_all limit
                   (Checked.groups_of (repeat_char "9" n ++ " passed"))
                 = false).
  { rewrite Hg. cbn [fits_all forallb]. rewrite length_repeat.
    unfold Checked.too_long.
    replace (0 <? limit)%nat with true by (symmetry; apply Nat.ltb_lt; lia).
    replace (limit <? n)%nat with true by (symmetry; apply Nat.ltb_lt; lia).
    reflexivity. }
  destruct (CheckedFacts.parse_cases limit
              (repeat_char "9" n ++ " passed") g)
    as [[_ Hp] | [(Hf & _) | (Hf & _)]];
    [exact Hp | congruence | congruence].
Qed.

(** When [run_tests] is done under a limit it did what it does without
    one; without a limit the two agree throughout. *)
Lemma run_tests_done (limit : nat) (E : env) (g g' : gui) :
  Checked.run_tests limit E g = Checked.Done g' ->
  run_tests E g = Finished g'.
Proof.
  intro H.
  destruct (CheckedFacts.run_cases limit E g)
    as [[Hno Hr] | (path & Hsel & Hne & [[_ Hr] | (o & e & rc & Hrun & Hp)])].
  - rewrite Hr in H. injection H as <-.
    now apply RunFacts.run_tests_no_target.
  - rewrite Hr in H. discriminate H.
  - destruct Hp as [(g1 & _ & Hr) | [_ Hr]]; rewrite Hr in H;
      [discriminate H|]. injection H as <-.
    now apply RunCases.run_tests_finished.
Qed.

Lemma run_tests_no_limit (E : env) (g : gui) :
  Checked.run_tests 0 E g = as_outcome (run_tests E g).
Proof.
  destruct (CheckedFacts.run_cases 0 E g)
    as [[Hno Hr] | (path & Hsel & Hne & [[Hrun Hr] | (o & e & rc & Hrun & Hp)])].
  - rewrite Hr, (RunFacts.run_tests_no_target E g Hno). reflexivity.
  - rewrite Hr, (RunCases.run_tests_escaped E g path Hsel Hne Hrun).
    reflexivity.
  - destruct Hp as [(g1 & Hv & _) | [_ Hr]].
    + destruct (UnderFacts.parser_raised_left _ _ _ _ Hv) as (_ & _ & _ & _ & H0).
      now contradiction H0.
    + rewrite Hr, (RunCases.run_tests_finished E g path o e rc Hsel Hne Hrun).
      reflexivity.
Qed.

(** The groups of two texts joined by a newline are those of the first
    followed by those of the second. *)
Lemma groups_of_join (a b : string) :
  Checked.groups_of (a ++ Str.nl ++ b)
  = (Checked.groups_of a ++ Checked.groups_of b)%list.
Proof.
  unfold Checked.groups_of.
  destruct (LineFacts.splitlines_join a b) as (pad & Hpad & ->).
  rewrite !flat_map_app.
  destruct Hpad as [-> | ->]; reflexivity.
Qed.

(** The same when more text follows the line: [run_tests] hands the
    parser the standard output, a newline and the standard error. *)
Lemma parse_raises_on_nines_line (limit n : nat) (rest : string) (g : gui) :
  0 < limit < n ->
  Checked._parse_test_summary
    limit ((repeat_char "9" n ++ " passed") ++ Str.nl ++ rest) g
  = Checked.ValueError g.
Proof.
  intros [Hl Hn].
  destruct (groups_of_nines n ltac:(lia)) as [more Hg].
  assert (Hfit : fits_all limit
                   (Checked.groups_of
                      ((repeat_char "9" n ++ " passed") ++ Str.nl ++ rest))
                 = false).
  { rewrite groups_of_join, Hg. cbn [app fits_all forallb].
    rewrite length_repeat. unfold Checked.too_long.
    replace (0 <? limit)%nat with true by (symmetry; apply Nat.ltb_lt; lia).
    replace (limit <? n)%nat with true by (symmetry; apply Nat.ltb_lt; lia).
    reflexivity. }
  destruct (CheckedFacts.parse_cases limit
              ((repeat_char "9" n ++ " passed") ++ Str.nl ++ rest) g)
    as [[_ Hp] | [(Hf & _) | (Hf & _)]];
    [exact Hp | congruence | congruence].
Qed.

(** A run whose child prints such a line is cut short by the parser: the
    streams are on the terminal, nothing else has changed. *)
Lemma run_raises_on_nines (limit n : nat) (E : env) (g : gui)
      (path stderr : string) (rc : Z) :
  0 < limit < n ->
  selected_path g = Some path -> path <> "" ->
  run_pytest E path (is_directory g) (Some (flag_var g))
  = Some (repeat_char "9" n ++ " passed", stderr, rc) ->
  Checked.run_tests limit E g
  = Checked.ParserRaised
      (Checked.before_parse g path (repeat_char "9" n ++ " passed") stderr).
Proof.
  intros Hn Hsel Hne Hrun.
  destruct (CheckedFacts.run_cases limit E g)
    as [[[Hno|Hno] _] | (p & Hp & _ & [[Hnone _] | (o & e & c & Ho & Hpar)])].
  - congruence.
  - congruence.
  - assert (p = path) by congruence. subst p. congruence.
  - assert (p = path) by congruence. subst p.
    rewrite Hrun in Ho. injection Ho as <- <- <-.
    rewrite (parse_raises_on_nines_line limit n) in Hpar by exact Hn.
    destruct Hpar as [(g' & Hv & Hr) | [Hv _]]; [|discriminate Hv].
    injection Hv as <-. exact Hr.
Qed.

End LimitFacts.

(** C5, as the specification words it, fails: an exception that is not an
    instance of [Exception] ([KeyboardInterrupt] while the child runs) is
    not caught by [except Exception] and leaves [run_pytest]; no result is
    returned. *)
Lemma run_pytest_lets_interrupt_through :
  subprocess_run Sample2.env_interrupted
    (pytest_call (sys_executable Sample2.env_interrupted)
                 "/tmp/t/test_a.py" (Some "-q"))
  = Raised BaseExc
  /\ run_pytest Sample2.env_interrupted "/tmp/t/test_a.py" false (Some "-q")
     = None
  /\ ~ (exists stderr,
          run_pytest Sample2.env_interrupted "/tmp/t/test_a.py" false
                     (Some "-q")
          = Some ("", stderr, 1%Z)).
Proof.
  split; [reflexivity|]. split; [reflexivity|].
  intros [stderr H]. discriminate H.
Qed.

(** C8, as the code has it: the parser returns exactly when no digit group
    it hands to [int] and none of the five counts it formats is longer than
    the interpreter's conversion limit, hence always when there is no
    limit; and whenever it returns, it has done what the parser without
    limit does and the total is the sum of the passed, failed, errors and
    skipped counts. *)
Theorem parse_returns_within_limit (limit : nat) (text : string) (g : gui) :
  ((exists g', Checked._parse_test_summary limit text g = Checked.Returned g')
   <-> fits_all limit (Checked.groups_of text) = true
       /\ counts_fit limit (parse_counts text) = true)
  /\ (limit = 0 ->
      Checked._parse_test_summary limit text g
      = Checked.Returned (_parse_test_summary text g))
  /\ (forall g',
        Checked._parse_test_summary limit text g = Checked.Returned g' ->
        g' = _parse_test_summary text g
        /\ tests_total g'
           = (tests_passed g' + tests_failed g' + tests_errors g'
              + tests_skipped g')%N
        /\ mkCounts (tests_total g') (tests_passed g') (tests_failed g')
                    (tests_errors g') (tests_skipped g')
           = parse_counts text
        /\ total (parse_counts text)
           = (passed (parse_counts text) + failed (parse_counts text)
              + errors (parse_counts text) + skipped (parse_counts text))%N).
Proof.
  pose proof (CheckedFacts.parse_cases limit text g) as Hcases.
  split; [|split].
  - split.
    + intros [g' Hg'].
      destruct Hcases as [[_ Hp] | [(_ & _ & l1 & l2 & l3 & l4 & l5 & Hp)
                                   | (Hf & Hc & _)]].
      * rewrite Hp in Hg'. discriminate Hg'.
      * rewrite Hp in Hg'. discriminate Hg'.
      * now split.
    + intros [Hf Hc].
      destruct Hcases as [[Hf' _] | [(_ & Hc' & _) | (_ & _ & Hp)]].
      * congruence.
      * congruence.
      * eexists. exact Hp.
  - intros ->.
    destruct Hcases as [[Hf' _] | [(_ & Hc' & _) | (_ & _ & Hp)]].
    + now rewrite CheckedFacts.fits_all_zero in Hf'.
    + now rewrite CheckedFacts.counts_fit_zero in Hc'.
    + exact Hp.
  - intros g' Hg'.
    destruct Hcases as [[_ Hp] | [(_ & _ & l1 & l2 & l3 & l4 & l5 & Hp)
                                 | (_ & _ & Hp)]];
      rewrite Hp in Hg'; try discriminate Hg'.
    injection Hg' as <-.
    unfold _parse_test_summary, parse_counts; simpl. repeat split.
Qed.

(** Under the default limit the summary of the docstring is parsed. *)
Lemma parse_returns_within_limit_witness :
  fits_all 4300
    (Checked.groups_of "3 passed, 1 failed, 2 skipped in 0.12s") = true
  /\ counts_fit 4300 (parse_counts "3 passed, 1 failed, 2 skipped in 0.12s")
     = true
  /\ exists g',
       Checked._parse_test_summary
         4300 "3 passed, 1 failed, 2 skipped in 0.12s" init
       = Checked.Returned g'
       /\ tests_total g' = 6%N.
Proof.
  assert (Hf : fits_all 4300
                 (Checked.groups_of "3 passed, 1 failed, 2 skipped in 0.12s")
               = true) by (vm_compute; reflexivity).
  assert (Hc : counts_fit 4300
                 (parse_counts "3 passed, 1 failed, 2 skipped in 0.12s")
               = true) by (vm_compute; reflexivity).
  destruct (parse_returns_within_limit
              4300 "3 passed, 1 failed, 2 skipped in 0.12s" init)
    as (Hiff & _ & Hret).
  destruct (proj2 Hiff (conj Hf Hc)) as [g' Hg'].
  split; [exact Hf|]. split; [exact Hc|].
  exists g'. split; [exact Hg'|].
  destruct (Hret g' Hg') as (-> & _). vm_compute. reflexivity.
Defined.

(** C8, as the specification words it, fails: under the default limit of
    4300 digits a line that counts 4301 nines as passed makes [int] raise
    [ValueError]; the parser does not return. *)
Lemma parse_raises_on_long_number :
  Checked._parse_test_summary 4300 (repeat_char "9" 4301 ++ " passed") init
  = Checked.ValueError init
  /\ ~ (exists g',
          Checked._parse_test_summary
            4300 (repeat_char "9" 4301 ++ " passed") init
          = Checked.Returned g').
Proof.
  assert (H : Checked._parse_test_summary
                4300 (repeat_char "9" 4301 ++ " passed") init
              = Checked.ValueError init)
    by (apply LimitFacts.parse_raises_on_nines; lia).
  split; [exact H|].
  intros [g' Hg']. rewrite H in Hg'. discriminate Hg'.
Qed.

(** X10: In every window reached from the start, under any conversion
    limit and also after runs that an exception cut short: the list box
    shows the history newest first; the history has at most five entries,
    each with the row its fields give, a snapshot that is not empty, a name
    that is not empty and a total that is the sum of its counts; the total
    counter is the sum of the four counters; the run button is enabled
    exactly when a target is selected, the path label names that target
    and its kind is the one of the mode shown; the flag is one of the four
    offered; the select button is enabled exactly when the boot is over.
    Without a limit the HUD labels show the counters as well; under a
    limit they need not, once the parser has raised. *)
Theorem reachable_under_limit_ok (limit : nat) (w : window) :
  reachable_under limit w -> reachable_under_ok limit w.
Proof. apply UnderFacts.under_inv. Qed.

(** After a run whose output counts 4301 nines, under the default limit,
    the window is in order although the parser raised: nothing was
    recorded and the counters are untouched. *)
Lemma reachable_under_limit_ok_witness :
  reachable_under_ok 4300 Sample3.after_long
  /\ Checked.run_tests 4300 Sample3.env_long (core Sample2.folder_picked)
     = Checked.ParserRaised (core Sample3.after_long)
  /\ run_history (core Sample3.after_long) = []
  /\ tests_total (core Sample3.after_long) = 0%N.
Proof.
  assert (Hrun : Checked.run_tests
                   4300 Sample3.env_long (core Sample2.folder_picked)
                 = Checked.ParserRaised
                     (Checked.before_parse
                        (core Sample2.folder_picked) "/srv/proj/tests/"
                        (repeat_char "9" 4301 ++ " passed") "")).
  { apply (LimitFacts.run_raises_on_nines 4300 4301 _ _ _ _ 0%Z).
    - lia.
    - reflexivity.
    - discriminate.
    - reflexivity. }
  split.
  - apply reachable_under_limit_ok.
    unfold Sample3.after_long, Sample2.folder_picked.
    apply under_run.
    apply (under_flag _ _ "-x"); [|simpl; tauto].
    apply under_select. apply under_radio; [|now right].
    apply under_boot_step; [apply under_init | lia].
  - unfold Sample3.after_long. rewrite Hrun.
    cbn [Checked.left_by core set_core].
    split; [reflexivity|]. split; reflexivity.
Defined.
